(** * ogr2bqjson: schema inference, safe file paths and argument validation

    A shallow embedding of [ogr2bqjson.py].  Python values are modelled as
    follows:
    - [str] is [string]; a [dict] is an association list kept in insertion
      order with unique keys (assignment to a present key replaces the value
      in place, assignment to a new key appends), because the order of the
      schema decides the text of the plaintext schema file;
    - a parsed JSON document is a [json] tree, a [float] being the rational
      number it denotes; [bool] is a subclass of [int] in Python, which
      [isinstance_int] records;
    - exceptions and loops that may not terminate live in the [result] monad;
    - the file system is the list of paths that exist, and the library calls
      the program does not define ([json.dumps], [gdal]) are parameters. *)

From Stdlib Require Import String Ascii List ZArith Bool Arith Lia QArith_base.
From Stdlib Require Import Permutation.
From Stdlib Require Import DecimalString DecimalNat.
Import ListNotations.

Close Scope Q_scope.
Open Scope list_scope.
Open Scope string_scope.

(** ** Python primitives *)

Module Py.

(** Exceptions the modelled code can raise. *)
Inductive exn : Type :=
| KeyError (key : string)
| TypeError
| AttributeError
| EOFError.

(** Outcome of a computation: a value, a raised exception, or a loop that
    was cut off by the iteration budget of the model. *)
Inductive result (A : Type) : Type :=
| Ok (a : A)
| Raise (e : exn)
| OutOfFuel.

Arguments Ok {A} a.
Arguments Raise {A} e.
Arguments OutOfFuel {A}.

Definition bind {A B : Type} (m : result A) (k : A -> result B) : result B :=
  match m with
  | Ok a => k a
  | Raise e => Raise e
  | OutOfFuel => OutOfFuel
  end.

(** The characters that cannot be written inside a literal. *)
Definition dquote : string := String (ascii_of_nat 34) "".
Definition newline : string := String (ascii_of_nat 10) "".
Definition tab : string := String (ascii_of_nat 9) "".

(** [needle in haystack] for two [str] values. *)
Fixpoint str_in (needle haystack : string) : bool :=
  String.prefix needle haystack
  || match haystack with
     | EmptyString => false
     | String _ rest => str_in needle rest
     end.

(** [s[:-2]] *)
Definition drop_last2 (s : string) : string :=
  String.substring 0 (String.length s - 2) s.

(** [sep.join(items)] is [String.concat sep items]. *)
Definition join (sep : string) (items : list string) : string :=
  String.concat sep items.

(** Truth value of a [str]: the empty string is falsy. *)
Definition truthy (s : string) : bool := negb (s =? "").

(** Truth value of a [str | None]. *)
Definition truthy_opt (s : option string) : bool :=
  match s with
  | Some s => truthy s
  | None => false
  end.

Section Dict.
Context {V : Type}.

Definition dict : Type := list (string * V).

(** [d.get(k)] *)
Fixpoint dict_get (d : dict) (k : string) : option V :=
  match d with
  | [] => None
  | (k', v) :: rest => if k' =? k then Some v else dict_get rest k
  end.

(** [k in d] *)
Definition dict_mem (k : string) (d : dict) : bool :=
  match dict_get d k with
  | Some _ => true
  | None => false
  end.

(** [d[k] = v] *)
Fixpoint dict_set (d : dict) (k : string) (v : V) : dict :=
  match d with
  | [] => [(k, v)]
  | (k', v') :: rest =>
      if k' =? k then (k', v) :: rest else (k', v') :: dict_set rest k v
  end.

(** [d.keys()] *)
Definition dict_keys (d : dict) : list string := map fst d.

(** [d[k]] *)
Definition dict_item (d : dict) (k : string) : result V :=
  match dict_get d k with
  | Some v => Ok v
  | None => Raise (KeyError k)
  end.
End Dict.

Arguments dict V : clear implicits.

(** [str(i)] for a non-negative [int]. *)
Definition str_of_nat (i : nat) : string :=
  NilEmpty.string_of_uint (Nat.to_uint i).

Fixpoint zeros (n : nat) : string :=
  match n with
  | O => ""
  | S n' => "0" ++ zeros n'
  end.

(** [f'{i:02d}'] for a non-negative [int]: the decimal numeral, padded on
    the left with zeros to a width of two. *)
Definition format_02d (i : nat) : string :=
  let digits := str_of_nat i in
  zeros (2 - String.length digits) ++ digits.

(** Reading a decimal numeral back, used to state what [format_02d]
    prints. *)
Definition nat_of_str (s : string) : option nat :=
  option_map Nat.of_uint (NilEmpty.uint_of_string s).

(** [s.rfind(c)] for a single character, [-1] when absent. *)
Fixpoint rfind_from (c : ascii) (s : string) (i : Z) (last : Z) : Z :=
  match s with
  | EmptyString => last
  | String a rest =>
      rfind_from c rest (i + 1) (if Ascii.eqb a c then i else last)
  end.

Definition rfind (c : ascii) (s : string) : Z := rfind_from c s 0 (-1).

(** [s[i:i+1]] *)
Definition char_at (s : string) (i : nat) : string := String.substring i 1 s.

(** The scan of [genericpath._splitext] over the leading dots of the file
    name: [true] when a character other than a dot lies in
    [filenameIndex .. dotIndex - 1]. *)
Fixpoint has_non_dot (p : string) (filenameIndex : nat) (steps : nat) : bool :=
  match steps with
  | O => false
  | S steps' =>
      if negb (char_at p filenameIndex =? ".") then true
      else has_non_dot p (filenameIndex + 1) steps'
  end.

(** [os.path.splitext(p)] on a POSIX system. *)
Definition splitext (p : string) : string * string :=
  let sepIndex := rfind "/"%char p in
  let dotIndex := rfind "."%char p in
  if (sepIndex <? dotIndex)%Z then
    let filenameIndex := Z.to_nat (sepIndex + 1) in
    let dot := Z.to_nat dotIndex in
    if has_non_dot p filenameIndex (dot - filenameIndex) then
      (String.substring 0 dot p,
       String.substring dot (String.length p - dot) p)
    else (p, "")
  else (p, "").

End Py.

Import Py.

Declare Scope result_scope.
Delimit Scope result_scope with result.
Notation "x <- m ;; k" := (bind m (fun x => k))
  (at level 100, m at next level, right associativity) : result_scope.
Open Scope result_scope.

(** ** JSON documents *)

#[local] Unset Elimination Schemes.
Inductive json : Type :=
| JNull
| JBool (b : bool)
| JInt (z : Z)
| JFloat (q : Q)
| JStr (s : string)
| JArr (items : list json)
| JObj (members : list (string * json)).
#[local] Set Elimination Schemes.

Definition is_none (value : json) : bool :=
  match value with JNull => true | _ => false end.

Definition isinstance_str (value : json) : bool :=
  match value with JStr _ => true | _ => false end.

(** [bool] is a subclass of [int]: [isinstance(True, int)] holds. *)
Definition isinstance_int (value : json) : bool :=
  match value with JInt _ | JBool _ => true | _ => false end.

Definition isinstance_float (value : json) : bool :=
  match value with JFloat _ => true | _ => false end.

Definition isinstance_bool (value : json) : bool :=
  match value with JBool _ => true | _ => false end.

(** ** Schema inference: [get_column_type] and [geojson_to_ndjson] *)

Definition get_column_type (value : json) (last_type : option string) : string :=
  let column_type := "UNKNOWN" in
  let column_type := if is_none value then "UNKNOWN" else column_type in
  let column_type :=
    if isinstance_str value then "STRING"
    else if isinstance_int value then "INTEGER"
    else if isinstance_float value then "FLOAT"
    else if isinstance_bool value then "BOOLEAN"
    else column_type in
  match last_type with
  | Some last =>
      if truthy last && negb (last =? column_type) then
        if last =? "STRING" then "STRING"
        else if (last =? "FLOAT") && (column_type =? "INTEGER") then "FLOAT"
        else column_type
      else column_type
  | None => column_type
  end.

(** The running classification of one column over the values it takes from
    the first record to the last: the fold that the loop over the records
    performs on [schema[key]], which starts absent; one step is
    [schema[key] = get_column_type(value, schema.get(key))]. *)
Definition merge_step (last : option string) (value : json) : option string :=
  Some (get_column_type value last).

Definition infer_column (values : list json) : option string :=
  fold_left merge_step values None.


(** [line_item.get('properties', {})] followed by the check that the loop
    [for key in properties] needs: a member that is not an object cannot be
    iterated and indexed by its keys. *)
Definition get_properties (line_item : json) : result (dict json) :=
  match line_item with
  | JObj members =>
      match dict_get members "properties" with
      | None => Ok []
      | Some (JObj properties) => Ok properties
      | Some _ => Raise TypeError
      end
  | _ => Raise AttributeError
  end.

(** [line_item[k]] *)
Definition line_item_get (line_item : json) (k : string) : result json :=
  match line_item with
  | JObj members => dict_item members k
  | _ => Raise TypeError
  end.

(** The body of [for key in properties]. *)
Fixpoint properties_loop (properties : dict json) (keys : list string)
    (row : dict json) (schema : dict string) : result (dict json * dict string) :=
  match keys with
  | [] => Ok (row, schema)
  | key :: keys' =>
      value <- dict_item properties key ;;
      let row := dict_set row key value in
      let schema := dict_set schema key (get_column_type value (dict_get schema key)) in
      properties_loop properties keys' row schema
  end.

Section Conversion.

(** [json.dumps(_, ensure_ascii=False)] *)
Variable dumps : json -> string.

(** One [if k in columns: row[columns[k]] = json.dumps(payload)] step; the
    payload is evaluated only when the key is configured. *)
Definition set_geo_field (columns : dict string) (k : string)
    (payload : result json) (row : dict json) : result (dict json) :=
  match dict_get columns k with
  | Some name => v <- payload ;; Ok (dict_set row name (JStr (dumps v)))
  | None => Ok row
  end.

(** The body of [for line in geojson_file], on the parsed line. *)
Definition convert_line (columns : dict string) (line_item : json)
    (schema : dict string) : result (dict json * dict string) :=
  let row := [] in
  properties <- get_properties line_item ;;
  rs <- properties_loop properties (dict_keys properties) row schema ;;
  let '(row, schema) := rs in
  row <- set_geo_field columns "geometry" (line_item_get line_item "geometry") row ;;
  row <- set_geo_field columns "geojson" (Ok line_item) row ;;
  row <- set_geo_field columns "geojson_geometry" (line_item_get line_item "geometry") row ;;
  Ok (row, schema).

Fixpoint lines_loop (columns : dict string) (lines : list json)
    (rows : list (dict json)) (schema : dict string)
    : result (list (dict json) * dict string) :=
  match lines with
  | [] => Ok (rows, schema)
  | line_item :: lines' =>
      rs <- convert_line columns line_item schema ;;
      let '(row, schema) := rs in
      lines_loop columns lines' (rows ++ [row])%list schema
  end.

(** One [if k in columns: schema[columns[k]] = type] step. *)
Definition set_geo_type (columns : dict string) (k : string) (type : string)
    (schema : dict string) : dict string :=
  match dict_get columns k with
  | Some name => dict_set schema name type
  | None => schema
  end.

Definition add_geo_types (columns : dict string) (schema : dict string) : dict string :=
  let schema := set_geo_type columns "geometry" "GEOGRAPHY" schema in
  let schema := set_geo_type columns "geojson" "STRING" schema in
  let schema := set_geo_type columns "geojson_geometry" "STRING" schema in
  schema.

(** [geojson_to_ndjson], on the parsed lines of the GeoJSONSeq file: the
    rows handed to [ndjson.dump] and the schema returned. *)
Definition geojson_to_ndjson (lines : list json) (columns : dict string)
    : result (list (dict json) * dict string) :=
  rs <- lines_loop columns lines [] [] ;;
  let '(rows, schema) := rs in
  Ok (rows, add_geo_types columns schema).

End Conversion.

(** ** Safe output paths: [is_output_file_safe] and [get_safe_filepath] *)

(** [os.path.exists(p)], over the list [fs] of the paths that exist. *)
Definition path_exists (fs : list string) (p : string) : bool :=
  existsb (String.eqb p) fs.

Definition is_output_file_safe (fs : list string) (filepath : string)
    (can_overwrite : bool) : bool :=
  can_overwrite || negb (path_exists fs filepath).

Definition is_output_directory_safe (fs : list string) (dir_path : string)
    (can_create_parents : bool) : bool :=
  can_create_parents || path_exists fs dir_path.

(** [f'{path_root}_{i:02d}{extension}'] *)
Definition numbered_path (path_root extension : string) (i : nat) : string :=
  path_root ++ "_" ++ format_02d i ++ extension.

(** The [while not is_output_file_safe(...)] loop; [fuel] bounds the number
    of iterations. *)
Fixpoint safe_filepath_loop (fuel : nat) (fs : list string)
    (path_root extension : string) (can_overwrite : bool)
    (i : nat) (initial_filepath : string) : result string :=
  if is_output_file_safe fs initial_filepath can_overwrite then Ok initial_filepath
  else
    match fuel with
    | O => OutOfFuel
    | S fuel' =>
        let i := i + 1 in
        safe_filepath_loop fuel' fs path_root extension can_overwrite i
          (numbered_path path_root extension i)
    end.

Definition get_safe_filepath (fuel : nat) (fs : list string)
    (initial_filepath : string) (can_overwrite : bool) (is_candidate : bool)
    : result string :=
  let '(path_root, extension) := splitext initial_filepath in
  let '(i, initial_filepath) :=
    if negb is_candidate then (1, path_root ++ "_01" ++ extension)
    else (0, initial_filepath) in
  safe_filepath_loop fuel fs path_root extension can_overwrite i initial_filepath.

(** ** Schema files: [save_schema_files] *)

(** What a file holds after the program wrote it: the object handed to
    [json.dump], or text. *)
Inductive content : Type :=
| JsonDump (schema : dict string)
| Text (text : string).

(** The part of the world [save_schema_files] acts on: the paths that exist,
    the files written and the lines printed, oldest first. *)
Record world : Type := {
  paths : list string;
  written : dict content;
  stdout : list string
}.

(** [with open(path, 'w+') as f: f.write(...)] *)
Definition write_file (w : world) (path : string) (c : content) : world :=
  {| paths := if path_exists (paths w) path then paths w else (paths w ++ [path])%list;
     written := dict_set (written w) path c;
     stdout := stdout w |}.

Definition print (w : world) (line : string) : world :=
  {| paths := paths w; written := written w; stdout := (stdout w ++ [line])%list |}.

(** The body of [for key in schema.keys()]: the text and the unknown columns
    gathered so far. *)
Fixpoint schema_text_loop (schema : dict string) (keys : list string)
    (schema_text : string) (unknown_columns : list string)
    : result (string * list string) :=
  match keys with
  | [] => Ok (schema_text, unknown_columns)
  | key :: keys' =>
      type <- dict_item schema key ;;
      let schema_text := schema_text ++ (key ++ ":" ++ type ++ "," ++ newline) in
      let unknown_columns :=
        if type =? "UNKNOWN" then (unknown_columns ++ [key])%list else unknown_columns in
      schema_text_loop schema keys' schema_text unknown_columns
  end.

(** The text written to the plaintext schema file and the unknown columns. *)
Definition render_schema (schema : dict string) : result (string * list string) :=
  tu <- schema_text_loop schema (dict_keys schema) "" [] ;;
  let '(schema_text, unknown_columns) := tu in
  Ok (drop_last2 schema_text, unknown_columns).

Definition warning_header : string :=
  newline ++ "!!!!!!!!!!!!!!!!!!!!!!!!!!!!! WARNING !!!!!!!!!!!!!!!!!!!!!!!!!!!!!!" ++ newline
  ++ "Schema has one or more columns whose values could not be determined:" ++ newline
  ++ tab ++ tab.

Definition warning_footer : string :=
  newline ++ "Edit the schema files and enter the proper datatype(s) before using them".

Definition unknown_warning (unknown_columns : list string) : string :=
  warning_header ++ join ", " unknown_columns ++ warning_footer.

Definition saving_json_message (json_filepath : string) : string :=
  "Saving schema json file to " ++ json_filepath
  ++ ". You can use it when creating a BigQuery table programmatically.".

Definition saving_plaintext_message (plaintext_filepath : string) : string :=
  "Saving plaintext schema file to " ++ plaintext_filepath
  ++ ". You can use it to copy/paste the schema when creating a table using the BigQuery Console.".

Definition save_schema_files (fuel : nat) (w : world) (schema : dict string)
    (path_root : string) (can_overwrite : bool) : result world :=
  json_filepath <-
    get_safe_filepath fuel (paths w) (path_root ++ "_SCHEMA.json") can_overwrite true ;;
  let w := print w (saving_json_message json_filepath) in
  let w := write_file w json_filepath (JsonDump schema) in
  plaintext_filepath <-
    get_safe_filepath fuel (paths w) (path_root ++ "_SCHEMA.txt") can_overwrite true ;;
  let w := print w (saving_plaintext_message plaintext_filepath) in
  tu <- render_schema schema ;;
  let '(schema_text, unknown_columns) := tu in
  let w := write_file w plaintext_filepath (Text schema_text) in
  if (0 <? List.length unknown_columns)%nat
  then Ok (print w (unknown_warning unknown_columns))
  else Ok w.

(** ** Argument validation: [get_arg_errors] and the start of [main] *)

Definition reserved_convert_options : list string := ["-f"; "-of"; "-t_srs"].

(** The parsed command line ([argparse.Namespace]). *)
Record Namespace : Type := {
  source : string;
  force_overwrite : bool;
  keep_geojsonseq : bool;
  columns : string;
  output_directory : option string;
  extension : option string;
  output_filepath : option string;
  create_parents : bool;
  skip_schemas : bool;
  convert_options : string
}.

(** What validation reads from outside the program: the paths that exist,
    which of them are files and directories, what [gdal.OpenEx] can open, and
    the lines typed at the prompt. *)
Record Env : Type := {
  existing : list string;
  isfile : string -> bool;
  isdir : string -> bool;
  gdal_can_open : string -> bool;
  stdin : list string
}.

Definition is_supported_geofile (env : Env) (filepath : string) : bool :=
  gdal_can_open env filepath.

Definition get_source_errors (env : Env) (source_path : string)
    (should_be_dir : bool) : option string :=
  if negb (truthy source_path) then
    Some "Invalid Source: source cannot be an empty string."
  else if negb (path_exists (existing env) source_path) then
    Some ("Invalid Source: " ++ dquote ++ source_path ++ dquote ++ " does not exist.")
  else if should_be_dir then
    if isfile env source_path then
      Some "Invalid Option: The --extension / -e option cannot be used when the source path is to a file."
    else None
  else
    if isdir env source_path then
      Some "Missing Option: --extension / -e is required when the source path is to a directory."
    else if negb (is_supported_geofile env source_path) then
      Some ("Invalid Source: " ++ dquote ++ source_path ++ dquote
            ++ " is not recognized as a supported geofile format by gdal.")
    else None.

Definition reserved_option_error (option : string) : string :=
  "Invalid Option: " ++ dquote ++ option ++ dquote
  ++ " is reserved and cannot be used within --convert_options / -v".

(** [for option in reserved_convert_options: if option in convert_options:
    return ...] *)
Fixpoint reserved_loop (options : list string) (convert_options : string)
    : option string :=
  match options with
  | [] => None
  | option :: options' =>
      if str_in option convert_options then Some (reserved_option_error option)
      else reserved_loop options' convert_options
  end.

(** The [while True] prompt of [get_output_file_args_errors]: the value of
    [do_exit] when the loop is left.  Each [input()] takes the next line
    typed; what the function prints is left out. *)
Fixpoint prompt_loop (answers : list string) : result bool :=
  match answers with
  | [] => Raise EOFError
  | answer :: answers' =>
      if answer =? "1" then Ok false
      else if answer =? "2" then Ok false
      else if negb (truthy answer) || (answer =? "3") then Ok true
      else prompt_loop answers'
  end.

Definition get_output_file_args_errors (fuel : nat) (env : Env)
    (output_filepath : option string) (can_overwrite can_create_parents : bool)
    : result (option string) :=
  match output_filepath with
  | Some output_filepath =>
      if truthy output_filepath then
        if negb (is_output_file_safe (existing env) output_filepath can_overwrite) then
          safe_file <- get_safe_filepath fuel (existing env) output_filepath false true ;;
          do_exit <- prompt_loop (stdin env) ;;
          if do_exit : bool then Ok (Some "Exiting") else Ok None
        else if negb (is_output_directory_safe (existing env)
                        (fst (splitext output_filepath)) can_create_parents) then
          Ok (Some ("Invalid Output File: Cannot create " ++ dquote ++ output_filepath
                    ++ dquote ++ " because its directory does not exists. Use the --create_parents option to create missing directories and their parents during execution."))
        else Ok None
      else Ok None
  | None => Ok None
  end.

Definition get_arg_errors (fuel : nat) (env : Env) (args : Namespace)
    : result (option string) :=
  let source_errors :=
    get_source_errors env (source args)
      (match extension args with Some _ => true | None => false end) in
  if truthy_opt source_errors then Ok source_errors
  else
    let reserved :=
      if truthy (convert_options args)
      then reserved_loop reserved_convert_options (convert_options args)
      else None in
    match reserved with
    | Some error => Ok (Some error)
    | None =>
        let directory_error :=
          match output_directory args with
          | Some dir =>
              if truthy dir
                 && negb (is_output_directory_safe (existing env) dir (create_parents args))
              then Some ("Invalid Output Path: " ++ dquote ++ dir ++ dquote
                         ++ " does not exist. Use the --create_parents option to create missing directories and their parents during execution.")
              else None
          | None => None
          end in
        match directory_error with
        | Some error => Ok (Some error)
        | None =>
            output_file_path_errors <-
              get_output_file_args_errors fuel env (output_filepath args)
                (force_overwrite args) (create_parents args) ;;
            if truthy_opt output_file_path_errors then Ok output_file_path_errors
            else Ok None
        end
    end.

(** How [main] ends. *)
Inductive outcome : Type :=
| SysExit (status : Z) (message : string)
| Finished (converted : bool).

Section Main.

(** Everything [main] does after validation: creating directories, reading
    the column configuration and converting.  [true] when a conversion
    ran. *)
Variable convert : Namespace -> result bool.

(** [sys.exit(arg_error)] with a message prints it and exits with
    status 1. *)
Definition main (fuel : nat) (env : Env) (args : Namespace) : result outcome :=
  arg_error <- get_arg_errors fuel env args ;;
  let continue := converted <- convert args ;; Ok (Finished converted) in
  match arg_error with
  | Some message => if truthy message then Ok (SysExit 1 message) else continue
  | None => continue
  end.

End Main.

(** ** Vocabulary of the statements *)

(** A [dict] never holds a key twice. *)
Fixpoint unique_keys {V : Type} (d : dict V) : bool :=
  match d with
  | [] => true
  | (k, _) :: rest => negb (dict_mem k rest) && unique_keys rest
  end.

(** The value a record gives to the property [key], if it has one. *)
Definition property_value (key : string) (line_item : json) : option json :=
  match get_properties line_item with
  | Ok properties => dict_get properties key
  | _ => None
  end.

(** The values the column [key] takes over the records, in file order;
    records without the property contribute nothing. *)
Definition column_values (key : string) (lines : list json) : list json :=
  flat_map (fun line_item =>
              match property_value key line_item with
              | Some value => [value]
              | None => []
              end) lines.

(** A record as the GeoJSONSeq file yields them: an object with a geometry
    whose properties, when present, are an object. *)
Definition wf_line (line_item : json) : bool :=
  match line_item with
  | JObj members =>
      dict_mem "geometry" members
      && match dict_get members "properties" with
         | None => true
         | Some (JObj properties) => unique_keys properties
         | Some _ => false
         end
  | _ => false
  end.

Definition geo_keys : list string := ["geometry"; "geojson"; "geojson_geometry"].

(** The schema type of a geometry-derived column. *)
Definition geo_type (k : string) : string :=
  if k =? "geometry" then "GEOGRAPHY" else "STRING".

(** What a geometry-derived column serialises: the whole record for
    [geojson], its geometry for the two others. *)
Definition geo_payload (k : string) (line_item : json) : option json :=
  if k =? "geojson" then Some line_item
  else match line_item with
       | JObj members => dict_get members "geometry"
       | _ => None
       end.

(** The names under which the configuration emits geometry-derived
    columns. *)
Definition configured_names (columns : dict string) : list string :=
  flat_map (fun k => match dict_get columns k with
                     | Some name => [name]
                     | None => []
                     end) geo_keys.

(** One entry of the plaintext schema, without its separator. *)
Definition schema_entry (kv : string * string) : string :=
  fst kv ++ ":" ++ snd kv.

(** The columns whose type is UNKNOWN, in schema order. *)
Definition unknown_columns_of (schema : dict string) : list string :=
  map fst (filter (fun kv => snd kv =? "UNKNOWN") schema).

(** The classification of a single value, with no earlier type. *)
Definition classify (value : json) : string := get_column_type value None.

Definition is_unknown (value : json) : bool := classify value =? "UNKNOWN".

(** The values that follow the last one classified UNKNOWN. *)
Fixpoint after_last_unknown (values : list json) : list json :=
  match values with
  | [] => []
  | value :: rest =>
      if is_unknown value || existsb is_unknown rest
      then after_last_unknown rest
      else values
  end.

(** What the fold of [get_column_type] computes for a column, in closed
    form. *)
Definition column_type_of (values : list json) : option string :=
  match values with
  | [] => None
  | _ =>
      if existsb isinstance_str values then Some "STRING"
      else
        match after_last_unknown values with
        | [] => Some "UNKNOWN"
        | tail =>
            if existsb isinstance_float tail then Some "FLOAT" else Some "INTEGER"
        end
  end.

(** A GeoJSON feature with the given properties and geometry. *)
Definition feature (properties : dict json) (geometry : json) : json :=
  JObj [("type", JStr "Feature"); ("properties", JObj properties);
        ("geometry", geometry)].

(** A point geometry with integer coordinates. *)
Definition point (x y : Z) : json :=
  JObj [("type", JStr "Point"); ("coordinates", JArr [JInt x; JInt y])].

(** [true] when the configuration emits the column of key [k] under the
    name [n]. *)
Definition column_named (columns : dict string) (k n : string) : bool :=
  match dict_get columns k with
  | Some name => name =? n
  | None => false
  end.

(** The field a row holds under the name [n]: the geometry-derived columns
    are assigned after the properties, [geometry] first and
    [geojson_geometry] last, so on a shared name the later one is kept. *)
Definition expected_field (dumps : json -> string) (columns : dict string)
    (line_item : json) (n : string) : option json :=
  let dumped k := option_map (fun g => JStr (dumps g)) (geo_payload k line_item) in
  if column_named columns "geojson_geometry" n then dumped "geojson_geometry"
  else if column_named columns "geojson" n then dumped "geojson"
  else if column_named columns "geometry" n then dumped "geometry"
  else property_value n line_item.

(** The type the schema holds under the name [n], given the type inferred
    from the properties. *)
Definition expected_type (columns : dict string) (inferred : option string)
    (n : string) : option string :=
  if column_named columns "geojson_geometry" n then Some (geo_type "geojson_geometry")
  else if column_named columns "geojson" n then Some (geo_type "geojson")
  else if column_named columns "geometry" n then Some (geo_type "geometry")
  else inferred.

(** A serialiser that prints only the kind of a document; it stands for
    [json.dumps] in the closed examples, where the text does not matter. *)
Definition dumps_kind (document : json) : string :=
  match document with
  | JNull => "null"
  | JBool true => "true"
  | JBool false => "false"
  | JInt _ | JFloat _ => "0"
  | JStr _ => "text"
  | JArr _ => "[]"
  | JObj _ => "{}"
  end.

(** What stands between two entries of the plaintext schema: a comma and a
    line break. *)
Definition entry_separator : string := "," ++ newline.

(** The plaintext schema as the claim words it: the entries, joined. *)
Definition plaintext_schema (schema : dict string) : string :=
  join entry_separator (map schema_entry schema).

(** A world with no path, no file written and nothing printed. *)
Definition empty_world : world := {| paths := []; written := []; stdout := [] |}.

(** [args.extension is not None] *)
Definition should_be_dir (args : Namespace) : bool :=
  match extension args with Some _ => true | None => false end.

(** An environment in which [data/roads.shp] is a file that gdal opens. *)
Definition roads_env : Env :=
  {| existing := ["data/roads.shp"];
     isfile := fun p => p =? "data/roads.shp";
     isdir := fun _ => false;
     gdal_can_open := fun p => p =? "data/roads.shp";
     stdin := [] |}.

(** The command line [ogr2bqjson data/roads.shp -v=<convert_options>]. *)
Definition roads_args (options : string) : Namespace :=
  {| source := "data/roads.shp";
     force_overwrite := false;
     keep_geojsonseq := false;
     columns := "{}";
     output_directory := None;
     extension := None;
     output_filepath := None;
     create_parents := false;
     skip_schemas := false;
     convert_options := options |}.

(** ** Paths: [get_path_parts] and [get_output_filepath] *)

(** [s.endswith(suffix)] *)
Fixpoint str_endswith (suffix s : string) : bool :=
  (s =? suffix)
  || match s with
     | EmptyString => false
     | String _ rest => str_endswith suffix rest
     end.

(** [s == '/' * len(s)] *)
Fixpoint all_slashes (s : string) : bool :=
  match s with
  | EmptyString => true
  | String c rest => Ascii.eqb c "/" && all_slashes rest
  end.

(** [s.rstrip('/')] *)
Fixpoint rstrip_slashes (s : string) : string :=
  match s with
  | EmptyString => EmptyString
  | String c rest =>
      let rest' := rstrip_slashes rest in
      if (rest' =? "") && Ascii.eqb c "/" then EmptyString else String c rest'
  end.

(** [os.path.basename(p)] on a POSIX system. *)
Definition basename (p : string) : string :=
  let i := Z.to_nat (rfind "/"%char p + 1) in
  String.substring i (String.length p - i) p.

(** [os.path.dirname(p)] on a POSIX system. *)
Definition dirname (p : string) : string :=
  let i := Z.to_nat (rfind "/"%char p + 1) in
  let head := String.substring 0 i p in
  if truthy head && negb (all_slashes head) then rstrip_slashes head else head.

(** [os.path.join(a, b)] on a POSIX system. *)
Definition path_join (a b : string) : string :=
  if String.prefix "/" b then b
  else if negb (truthy a) || str_endswith "/" a then a ++ b
  else a ++ "/" ++ b.

(** The dictionary [get_path_parts] returns. *)
Record path_parts : Type := {
  part_extension : string;
  part_filename_root : string;
  part_full_path : string;
  part_path_root : string
}.

Definition get_path_parts (path : string) : path_parts :=
  let '(path_root, extension) := splitext path in
  let filename_root := fst (splitext (basename path)) in
  {| part_extension := extension;
     part_filename_root := filename_root;
     part_full_path := path;
     part_path_root := path_root |}.

(** [a or b] for a [str | None] and a [str]. *)
Definition str_or (a : option string) (b : string) : string :=
  match a with
  | Some s => if truthy s then s else b
  | None => b
  end.

Definition get_output_filepath (fuel : nat) (fs : list string)
    (source_filepath extension : string) (can_overwrite : bool)
    (output_directory : option string) : result string :=
  let source := get_path_parts source_filepath in
  let output_directory := str_or output_directory (dirname source_filepath) in
  let filepath := path_join output_directory (part_filename_root source ++ extension) in
  get_safe_filepath fuel fs filepath can_overwrite true.

(** The directory [create_missing_directories] hands to [os.makedirs]. *)
Definition directory_to_create (path : string) (is_dir : bool) : string :=
  let path := if is_dir && negb (str_endswith "/" path) then path ++ "/" else path in
  dirname path.

(** ** The column configuration: [get_columns] *)

Definition default_column_names : list string :=
  ["geometry"; "geojson"; "geojson_geometry"].

(** Truth value of a parsed JSON document. *)
Definition json_truthy (v : json) : bool :=
  match v with
  | JNull => false
  | JBool b => b
  | JInt z => negb (z =? 0)%Z
  | JFloat q => negb (Qnum q =? 0)%Z
  | JStr s => truthy s
  | JArr items => match items with [] => false | _ => true end
  | JObj members => match members with [] => false | _ => true end
  end.

(** The body of [for column in user_columns]: a column equal to one of the
    default names is kept under its own name.  What is printed for the
    others is left out. *)
Fixpoint columns_loop (user_columns : list json) (columns : dict json) : dict json :=
  match user_columns with
  | [] => columns
  | column :: rest =>
      match column with
      | JStr name =>
          if existsb (String.eqb name) default_column_names
          then columns_loop rest (dict_set columns name column)
          else columns_loop rest columns
      | _ => columns_loop rest columns
      end
  end.

(** The characters of a [str], as iterating over it yields them. *)
Fixpoint characters (s : string) : list json :=
  match s with
  | EmptyString => []
  | String c rest => JStr (String c "") :: characters rest
  end.

(** [get_columns], over a parser [loads] for [json.loads] that answers [None]
    when it raises.  The value [False] is [None]. *)
Definition get_columns (loads : string -> option json) (columns_args : string)
    : result (option (dict json)) :=
  if columns_args =? "" then Ok (Some [])
  else
    match loads columns_args with
    | None => Ok None
    | Some user_columns =>
        let finish (columns : dict json) : option (dict json) :=
          match columns with [] => None | _ => Some columns end in
        if negb (json_truthy user_columns) then Ok (Some [])
        else
          match user_columns with
          | JObj members => Ok (Some members)
          | JArr items => Ok (finish (columns_loop items []))
          | JStr text => Ok (finish (columns_loop (characters text) []))
          | _ => Raise TypeError
          end
    end.

(** The names a configuration gives, for the entries whose name is a
    string. *)
Definition column_names (columns : dict json) : dict string :=
  flat_map (fun kv => match snd kv with
                      | JStr name => [(fst kv, name)]
                      | _ => []
                      end) columns.

(** ** Directory conversion and the dispatch of [main] *)

(** The arguments of one call of [convert_to_ndjson]. *)
Record ndjson_call : Type := {
  call_input_filepath : string;
  call_can_overwrite : bool;
  call_columns : dict json;
  call_convert_options : string;
  call_do_keep_geojsonseq : bool;
  call_output_directory : option string;
  call_output_filepath : option string;
  call_save_schemas : bool
}.

(** The source directory [convert_all] lists:
    [source_directory += source_directory + '/'] when it does not end with a
    slash. *)
Definition listed_directory (source_directory : string) : string :=
  if negb (str_endswith "/" source_directory)
  then source_directory ++ (source_directory ++ "/")
  else source_directory.

Definition dotted_extension (target_extension : string) : string :=
  if negb (String.prefix "." target_extension) then "." ++ target_extension
  else target_extension.

(** [convert_all], as the calls of [convert_to_ndjson] it makes, in order;
    each is followed by [save_schema_files] unless schemas are skipped.
    [listdir] stands for [os.listdir] and answers [None] when it raises. *)
Definition convert_all (listdir : string -> option (list string))
    (source_directory target_extension : string) (can_overwrite : bool)
    (columns : dict json) (convert_options : string) (do_keep_geojsonseq : bool)
    (output_directory : option string) (skip_schemas : bool)
    : option (list ndjson_call) :=
  let target_extension := dotted_extension target_extension in
  let source_directory := listed_directory source_directory in
  let output_directory := str_or output_directory source_directory in
  match listdir source_directory with
  | None => None
  | Some files =>
      Some (map (fun file =>
                   {| call_input_filepath := path_join source_directory file;
                      call_can_overwrite := can_overwrite;
                      call_columns := columns;
                      call_convert_options := convert_options;
                      call_do_keep_geojsonseq := do_keep_geojsonseq;
                      call_output_directory := Some output_directory;
                      call_output_filepath := None;
                      call_save_schemas := negb skip_schemas |})
              (filter (fun file => snd (splitext file) =? target_extension) files))
  end.

(** What [main] goes on to do. *)
Inductive dispatch : Type :=
| Exit (status : Z) (message : string)
| Uncaught
| Directory (calls : list ndjson_call)
| SingleFile (call : ndjson_call).

Section Dispatch.

(** [json.loads], [os.listdir], and [os.makedirs(_, exist_ok=True)], which
    answers the paths that exist afterwards or [None] when it raises. *)
Variable loads : string -> option json.
Variable listdir : string -> option (list string).
Variable makedirs : list string -> string -> option (list string).

(** [main] up to the conversion calls.  [sys.exit()] without an argument
    exits with status 0; an exception that [os.listdir] raises is not
    caught. *)
Definition main_dispatch (fuel : nat) (env : Env) (args : Namespace)
    : result dispatch :=
  arg_error <- get_arg_errors fuel env args ;;
  if truthy_opt arg_error then
    Ok (Exit 1 (match arg_error with Some message => message | None => "" end))
  else
    let created :=
      if create_parents args
         && (truthy_opt (output_directory args) || truthy_opt (output_filepath args))
      then
        makedirs (existing env)
          (directory_to_create
             (str_or (output_filepath args) (str_or (output_directory args) ""))
             (match output_filepath args with None => true | Some _ => false end))
      else Some (existing env) in
    match created with
    | None => Ok (Exit 0 "")
    | Some fs =>
        columns <- get_columns loads (columns args) ;;
        match columns with
        | None => Ok (Exit 0 "")
        | Some columns =>
            if truthy_opt (extension args) then
              match convert_all listdir (source args) (str_or (extension args) "")
                      false columns (convert_options args) (keep_geojsonseq args)
                      (output_directory args) (skip_schemas args) with
              | Some calls => Ok (Directory calls)
              | None => Ok Uncaught
              end
            else
              output_filepath <-
                (if truthy_opt (output_filepath args)
                 then p <- get_safe_filepath fuel fs (str_or (output_filepath args) "")
                             (force_overwrite args) true ;; Ok (Some p)
                 else Ok (output_filepath args)) ;;
              Ok (SingleFile
                    {| call_input_filepath := source args;
                       call_can_overwrite := force_overwrite args;
                       call_columns := columns;
                       call_convert_options := convert_options args;
                       call_do_keep_geojsonseq := keep_geojsonseq args;
                       call_output_directory := output_directory args;
                       call_output_filepath := output_filepath;
                       call_save_schemas := negb (skip_schemas args) |})
        end
    end.

End Dispatch.

(** ** Vocabulary of the further properties *)

(** [true] when the array holds the string [k]. *)
Definition mentions (items : list json) (k : string) : bool :=
  existsb (fun item => match item with JStr s => s =? k | _ => false end) items.

(** The answers the overwrite prompt acts on. *)
Definition recognised (answer : string) : bool :=
  (answer =? "1") || (answer =? "2") || (answer =? "3") || (answer =? "").


(** A parser that answers the same document for every text, for the closed
    examples. *)
Definition loads_as (document : json) (text : string) : option json :=
  Some document.

(** An environment with the directory [data/], the file [data/roads.shp]
    and an earlier output [out.json], in which [2] is typed at the prompt. *)
Definition data_env : Env :=
  {| existing := ["data/"; "data/roads.shp"; "out.json"];
     isfile := fun p => (p =? "data/roads.shp") || (p =? "out.json");
     isdir := fun p => p =? "data/";
     gdal_can_open := fun p => p =? "data/roads.shp";
     stdin := ["2"] |}.

(** The command line [ogr2bqjson data/roads.shp -o <output>], with [-p] when
    [parents] is set. *)
Definition roads_args_to (output : string) (parents : bool) : Namespace :=
  {| source := "data/roads.shp";
     force_overwrite := false;
     keep_geojsonseq := false;
     columns := "{}";
     output_directory := None;
     extension := None;
     output_filepath := Some output;
     create_parents := parents;
     skip_schemas := false;
     convert_options := "" |}.

(** The command line [ogr2bqjson data/ -e shp -f]. *)
Definition directory_args : Namespace :=
  {| source := "data/";
     force_overwrite := true;
     keep_geojsonseq := false;
     columns := "{}";
     output_directory := None;
     extension := Some "shp";
     output_filepath := None;
     create_parents := false;
     skip_schemas := false;
     convert_options := "" |}.

(** A directory listing that holds [a.shp] and [b.txt] everywhere. *)
Definition two_files (directory : string) : option (list string) :=
  Some ["a.shp"; "b.txt"].

(** An [os.makedirs] that refuses the empty path and otherwise changes
    nothing. *)
Definition makedirs_nonempty (fs : list string) (directory : string)
    : option (list string) :=
  if directory =? "" then None else Some fs.

(** * Properties *)

(** ** Association lists *)

Section DictFacts.
Context {V : Type}.
Implicit Types (d : dict V) (k : string) (v : V).

Lemma dict_get_set d k v k' :
  dict_get (dict_set d k v) k' = if k =? k' then Some v else dict_get d k'.
Proof.
  induction d as [|[k0 v0] d IH]; simpl.
  - reflexivity.
  - destruct (String.eqb_spec k0 k) as [->|Hk]; simpl.
    + destruct (k =? k'); reflexivity.
    + rewrite IH. destruct (String.eqb_spec k0 k') as [->|Hk'].
      * apply String.eqb_neq in Hk. rewrite String.eqb_sym in Hk.
        rewrite Hk. reflexivity.
      * reflexivity.
Qed.

Lemma dict_get_set_same d k v : dict_get (dict_set d k v) k = Some v.
Proof. rewrite dict_get_set, String.eqb_refl. reflexivity. Qed.

Lemma dict_get_set_other d k v k' :
  k <> k' -> dict_get (dict_set d k v) k' = dict_get d k'.
Proof.
  intros H. rewrite dict_get_set.
  apply String.eqb_neq in H. rewrite H. reflexivity.
Qed.

Lemma dict_get_in_keys d k :
  dict_get d k <> None <-> In k (dict_keys d).
Proof.
  induction d as [|[k0 v0] d IH]; simpl.
  - split; [congruence | tauto].
  - destruct (String.eqb_spec k0 k) as [->|Hk].
    + split; [auto | congruence].
    + rewrite IH. split; [auto | intros [?|?]; [congruence | assumption]].
Qed.

Lemma unique_keys_NoDup d : unique_keys d = true -> NoDup (dict_keys d).
Proof.
  induction d as [|[k0 v0] d IH]; simpl; intros H.
  - constructor.
  - apply andb_true_iff in H as [Hk Hd]. constructor; [|auto].
    intros Hin. apply dict_get_in_keys in Hin.
    unfold dict_mem in Hk. destruct (dict_get d k0); [discriminate | congruence].
Qed.

Lemma dict_get_unique_entry d k v :
  unique_keys d = true -> In (k, v) d -> dict_get d k = Some v.
Proof.
  induction d as [|[k0 v0] d IH]; simpl; intros H Hin; [tauto|].
  apply andb_true_iff in H as [Hk Hd].
  destruct Hin as [Heq|Hin].
  - inversion Heq; subst. rewrite String.eqb_refl. reflexivity.
  - destruct (String.eqb_spec k0 k) as [->|Hne]; [|auto].
    exfalso. unfold dict_mem in Hk. rewrite (IH Hd Hin) in Hk. discriminate.
Qed.
End DictFacts.

(** ** One merge step of [get_column_type] *)

Lemma classify_cases (value : json) :
  classify value = "UNKNOWN" \/ classify value = "STRING"
  \/ classify value = "INTEGER" \/ classify value = "FLOAT".
Proof. destruct value as [| | | | | |]; cbv; tauto. Qed.

(** A boolean is classified as an integer: the test for [bool] comes after
    the test for [int], which every [bool] passes. *)
Lemma boolean_classified_integer (b : bool) :
  get_column_type (JBool b) None = "INTEGER".
Proof. reflexivity. Qed.

Lemma string_state_is_permanent (value : json) :
  get_column_type value (Some "STRING") = "STRING".
Proof. destruct value; reflexivity. Qed.

Lemma string_value_wins (s : string) (last_type : option string) :
  get_column_type (JStr s) last_type = "STRING".
Proof.
  unfold get_column_type; simpl. destruct last_type as [last|]; [|reflexivity].
  destruct (truthy last && negb (last =? "STRING")) eqn:E; [|reflexivity].
  apply andb_true_iff in E as [_ E]. apply negb_true_iff in E. rewrite E.
  rewrite andb_false_r. reflexivity.
Qed.

Lemma float_state_absorbs_integer (value : json) :
  isinstance_int value = true ->
  get_column_type value (Some "FLOAT") = "FLOAT".
Proof. destruct value; simpl; intros H; try discriminate; reflexivity. Qed.

Lemma integer_state_yields_to_float (q : Q) :
  get_column_type (JFloat q) (Some "INTEGER") = "FLOAT".
Proof. reflexivity. Qed.

Lemma unknown_state_is_replaced (value : json) :
  get_column_type value (Some "UNKNOWN") = classify value.
Proof. destruct value; reflexivity. Qed.

Lemma absent_state_is_replaced (value : json) :
  get_column_type value None = classify value.
Proof. reflexivity. Qed.

(** A value classified UNKNOWN leaves only the STRING state alone. *)
Lemma unknown_value_resets (value : json) (last : string) :
  classify value = "UNKNOWN" -> last <> "STRING" ->
  get_column_type value (Some last) = "UNKNOWN".
Proof.
  intros Hc Hl. apply String.eqb_neq in Hl.
  destruct value; cbv in Hc; try discriminate;
    unfold get_column_type; simpl; rewrite Hl, andb_false_r;
    destruct (truthy last && negb (last =? "UNKNOWN")); reflexivity.
Qed.

(** ** The fold over the values of a column *)

Lemma infer_column_snoc (values : list json) (value : json) :
  infer_column (values ++ [value])
  = Some (get_column_type value (infer_column values)).
Proof. unfold infer_column. rewrite fold_left_app. reflexivity. Qed.

Lemma after_last_unknown_snoc (values : list json) (value : json) :
  after_last_unknown (values ++ [value])
  = if is_unknown value then []
    else (after_last_unknown values ++ [value])%list.
Proof.
  induction values as [|a l IH].
  - simpl. destruct (is_unknown value); reflexivity.
  - cbn [after_last_unknown app]. rewrite existsb_app. simpl (existsb _ [value]).
    rewrite orb_false_r, IH.
    destruct (is_unknown value).
    + rewrite !orb_true_r. reflexivity.
    + rewrite orb_false_r.
      destruct (is_unknown a || existsb is_unknown l); reflexivity.
Qed.

(** The state the fold has reached, when no value was a string. *)
Lemma column_type_of_states (values : list json) :
  existsb isinstance_str values = false ->
  column_type_of values = None
  \/ column_type_of values = Some "UNKNOWN"
  \/ column_type_of values = Some "INTEGER"
  \/ column_type_of values = Some "FLOAT".
Proof.
  intros H. unfold column_type_of. destruct values as [|a l]; [tauto|].
  rewrite H. destruct (after_last_unknown (a :: l)); [tauto|].
  destruct (existsb isinstance_float (j :: l0)); tauto.
Qed.

Lemma infer_column_closed_form (values : list json) :
  infer_column values = column_type_of values.
Proof.
  induction values as [|value l IH] using rev_ind; [reflexivity|].
  rewrite infer_column_snoc, IH.
  assert (Hne : column_type_of (l ++ [value])
                = if existsb isinstance_str (l ++ [value]) then Some "STRING"
                  else match after_last_unknown (l ++ [value]) with
                       | [] => Some "UNKNOWN"
                       | tail => if existsb isinstance_float tail
                                 then Some "FLOAT" else Some "INTEGER"
                       end).
  { destruct l; reflexivity. }
  rewrite Hne, existsb_app, after_last_unknown_snoc. clear Hne IH.
  destruct (existsb isinstance_str l) eqn:Hstr.
  - assert (Hs : column_type_of l = Some "STRING").
    { unfold column_type_of. destruct l; [discriminate|]. rewrite Hstr. reflexivity. }
    rewrite Hs, string_state_is_permanent. reflexivity.
  - simpl (existsb isinstance_str [value]). rewrite orb_false_l, orb_false_r.
    destruct (isinstance_str value) eqn:Hv.
    { destruct value; try discriminate. rewrite string_value_wins. reflexivity. }
    unfold column_type_of. destruct l as [|a l'] eqn:El.
    { destruct value; try discriminate; reflexivity. }
    rewrite <- El in *. rewrite Hstr.
    assert (Happ : forall tail : list json,
               match (tail ++ [value])%list with
               | [] => Some "UNKNOWN"
               | rest =>
                   if existsb isinstance_float rest
                   then Some "FLOAT" else Some "INTEGER"
               end
               = if existsb isinstance_float tail || isinstance_float value
                 then Some "FLOAT" else Some "INTEGER").
    { intros tail. rewrite <- (orb_false_r (isinstance_float value)).
      change (isinstance_float value || false)
        with (existsb isinstance_float [value]).
      rewrite <- existsb_app. destruct tail; reflexivity. }
    destruct value as [|b|z|f|s|items|members]; try discriminate;
      match goal with
      | |- context [is_unknown ?v] =>
          let u := fresh "u" in
          set (u := is_unknown v); vm_compute in u; subst u; cbv iota
      end;
      try rewrite Happ;
      destruct (after_last_unknown l) as [|t tail];
      try destruct (existsb isinstance_float (t :: tail));
      reflexivity.
Qed.

Lemma existsb_Permutation {A : Type} (f : A -> bool) (l l' : list A) :
  Permutation l l' -> existsb f l = existsb f l'.
Proof.
  induction 1 as [|x l l' _ IH|x y l|l l' l'' _ IH1 _ IH2]; simpl.
  - reflexivity.
  - rewrite IH. reflexivity.
  - destruct (f x), (f y); reflexivity.
  - congruence.
Qed.

Lemma after_last_unknown_none (values : list json) :
  existsb is_unknown values = false -> after_last_unknown values = values.
Proof.
  destruct values as [|a l]; simpl; intros H; [reflexivity|].
  rewrite H. reflexivity.
Qed.

(** Without a value classified UNKNOWN the fold is the join of the chain
    INTEGER < FLOAT < STRING. *)
Lemma column_type_of_without_unknown (values : list json) :
  existsb is_unknown values = false ->
  column_type_of values
  = match values with
    | [] => None
    | _ => if existsb isinstance_str values then Some "STRING"
           else if existsb isinstance_float values then Some "FLOAT"
           else Some "INTEGER"
    end.
Proof.
  intros H. unfold column_type_of. rewrite (after_last_unknown_none _ H).
  destruct values as [|a l]; reflexivity.
Qed.

(** The part of order independence that the code has: over values none of
    which is null (or a nested document), every order of the same values
    infers the same type. *)
Lemma infer_column_order_independent_without_unknown (values values' : list json) :
  Permutation values values' ->
  existsb is_unknown values = false ->
  infer_column values = infer_column values'.
Proof.
  intros HP HU.
  assert (HU' : existsb is_unknown values' = false)
    by (rewrite <- (existsb_Permutation _ _ _ HP); exact HU).
  rewrite !infer_column_closed_form.
  rewrite (column_type_of_without_unknown _ HU), (column_type_of_without_unknown _ HU').
  rewrite (existsb_Permutation isinstance_str _ _ HP).
  rewrite (existsb_Permutation isinstance_float _ _ HP).
  destruct values as [|a l], values' as [|a' l']; try reflexivity.
  - apply Permutation_nil in HP. discriminate.
  - apply Permutation_sym, Permutation_nil in HP. discriminate.
Qed.

(** ** The conversion loop *)

Lemma properties_loop_spec (properties : dict json) (keys : list string) :
  forall (row : dict json) (schema : dict string),
    (forall k, In k keys -> dict_get properties k <> None) ->
    NoDup keys ->
    exists row' schema',
      properties_loop properties keys row schema = Ok (row', schema')
      /\ (forall k, dict_get schema' k
                    = if existsb (String.eqb k) keys
                      then option_map (fun v => get_column_type v (dict_get schema k))
                             (dict_get properties k)
                      else dict_get schema k)
      /\ (forall k, dict_get row' k
                    = if existsb (String.eqb k) keys
                      then dict_get properties k
                      else dict_get row k).
Proof.
  induction keys as [|key keys IH]; intros row schema Hin Hnd.
  - exists row, schema. simpl. auto.
  - cbn [properties_loop]. unfold dict_item.
    destruct (dict_get properties key) as [value|] eqn:Hv.
    2:{ exfalso. apply (Hin key); [left; reflexivity | exact Hv]. }
    cbn [bind]. inversion Hnd as [|? ? Hnotin Hnd']; subst.
    destruct (IH (dict_set row key value)
                 (dict_set schema key (get_column_type value (dict_get schema key))))
      as (row' & schema' & Heq & Hs & Hr); [intros; apply Hin; right; assumption | assumption |].
    exists row', schema'. split; [exact Heq|].
    assert (Hkey : existsb (String.eqb key) keys = false).
    { destruct (existsb (String.eqb key) keys) eqn:E; [|reflexivity].
      apply existsb_exists in E as (x & Hx & Hxe).
      apply String.eqb_eq in Hxe. subst. contradiction. }
    split; intros k; [rewrite Hs | rewrite Hr]; cbn [existsb];
      destruct (String.eqb_spec k key) as [->|Hne]; cbn [orb].
    + rewrite Hkey, dict_get_set_same, Hv. reflexivity.
    + rewrite dict_get_set_other by congruence. reflexivity.
    + rewrite Hkey, dict_get_set_same, Hv. reflexivity.
    + rewrite dict_get_set_other by congruence. reflexivity.
Qed.

Lemma existsb_keys {V : Type} (d : dict V) (k : string) :
  existsb (String.eqb k) (dict_keys d)
  = match dict_get d k with Some _ => true | None => false end.
Proof.
  induction d as [|[k0 v0] d IH]; simpl; [reflexivity|].
  rewrite String.eqb_sym. destruct (k0 =? k); simpl; [reflexivity | exact IH].
Qed.

Lemma properties_loop_all (properties : dict json) (row : dict json)
    (schema : dict string) :
  unique_keys properties = true ->
  exists row' schema',
    properties_loop properties (dict_keys properties) row schema = Ok (row', schema')
    /\ (forall k, dict_get schema' k
                  = match dict_get properties k with
                    | Some v => Some (get_column_type v (dict_get schema k))
                    | None => dict_get schema k
                    end)
    /\ (forall k, dict_get row' k
                  = match dict_get properties k with
                    | Some v => Some v
                    | None => dict_get row k
                    end).
Proof.
  intros Hu.
  destruct (properties_loop_spec properties (dict_keys properties) row schema)
    as (row' & schema' & Heq & Hs & Hr).
  - intros k Hk. apply dict_get_in_keys. exact Hk.
  - apply unique_keys_NoDup. exact Hu.
  - exists row', schema'. split; [exact Heq|].
    split; intros k; [rewrite Hs | rewrite Hr]; rewrite existsb_keys;
      destruct (dict_get properties k); reflexivity.
Qed.

Section ConversionFacts.

Variable dumps : json -> string.

Lemma convert_line_spec (columns : dict string) (line_item : json)
    (schema : dict string) :
  wf_line line_item = true ->
  exists row schema',
    convert_line dumps columns line_item schema = Ok (row, schema')
    /\ (forall k, dict_get schema' k
                  = fold_left merge_step (column_values k [line_item])
                      (dict_get schema k))
    /\ (forall n, dict_get row n = expected_field dumps columns line_item n).
Proof.
  intros Hwf. destruct line_item as [| | | | | |members]; try discriminate.
  cbn [wf_line] in Hwf. apply andb_true_iff in Hwf as [Hg Hp].
  unfold dict_mem in Hg.
  destruct (dict_get members "geometry") as [geometry|] eqn:Hgeo; [clear Hg|discriminate].
  assert (Hprops : exists properties,
             get_properties (JObj members) = Ok properties
             /\ unique_keys properties = true).
  { cbn [get_properties].
    destruct (dict_get members "properties") as [[| | | | | |properties]|];
      try discriminate; eauto. }
  destruct Hprops as (properties & Hget & Hu).
  destruct (properties_loop_all properties [] schema Hu)
    as (row0 & schema' & Hloop & Hs & Hr).
  unfold convert_line. rewrite Hget. cbn [bind]. rewrite Hloop. cbn [bind].
  unfold set_geo_field, line_item_get, dict_item. rewrite Hgeo.
  assert (Hschema : forall k,
             dict_get schema' k
             = fold_left merge_step (column_values k [JObj members])
                 (dict_get schema k)).
  { intros k. rewrite Hs. unfold column_values, property_value.
    cbn [flat_map]. rewrite Hget, app_nil_r.
    destruct (dict_get properties k); reflexivity. }
  assert (Hrow0 : forall n, dict_get row0 n = property_value n (JObj members)).
  { intros n. rewrite Hr. unfold property_value. rewrite Hget.
    destruct (dict_get properties n); reflexivity. }
  unfold expected_field, column_named, geo_payload. cbn [String.eqb Ascii.eqb Bool.eqb].
  rewrite Hgeo.
  destruct (dict_get columns "geometry") as [n1|];
    destruct (dict_get columns "geojson") as [n2|];
    destruct (dict_get columns "geojson_geometry") as [n3|];
    cbn [bind option_map];
    (eexists; eexists; split; [reflexivity|]; split; [exact Hschema|]);
    intros n; rewrite ?dict_get_set, Hrow0;
    repeat match goal with
           | |- context [?a =? n] => destruct (a =? n)
           end; reflexivity.
Qed.

Lemma lines_loop_spec (columns : dict string) (lines : list json) :
  forall (rows : list (dict json)) (schema : dict string),
    forallb wf_line lines = true ->
    exists rows' schema',
      lines_loop dumps columns lines rows schema = Ok ((rows ++ rows')%list, schema')
      /\ (forall k, dict_get schema' k
                    = fold_left merge_step (column_values k lines) (dict_get schema k))
      /\ Forall2 (fun line_item row =>
                    forall n, dict_get row n = expected_field dumps columns line_item n)
           lines rows'.
Proof.
  induction lines as [|line_item lines IH]; intros rows schema Hwf.
  - exists [], schema. cbn. rewrite app_nil_r. auto.
  - cbn [forallb] in Hwf. apply andb_true_iff in Hwf as [Hl Hls].
    destruct (convert_line_spec columns line_item schema Hl)
      as (row & schema1 & Hc & Hs1 & Hr1).
    destruct (IH (rows ++ [row])%list schema1 Hls) as (rows' & schema' & Hloop & Hs & Hrs).
    exists (row :: rows'), schema'. cbn [lines_loop]. rewrite Hc. cbn [bind].
    rewrite Hloop, <- app_assoc. split; [reflexivity|]. split.
    + intros k. rewrite Hs, Hs1. unfold column_values. cbn [flat_map].
      rewrite app_nil_r, <- fold_left_app. reflexivity.
    + constructor; assumption.
Qed.

Lemma add_geo_types_get (columns : dict string) (schema : dict string) (n : string) :
  dict_get (add_geo_types columns schema) n
  = expected_type columns (dict_get schema n) n.
Proof.
  unfold add_geo_types, set_geo_type, expected_type, column_named, geo_type.
  cbn [String.eqb Ascii.eqb Bool.eqb].
  destruct (dict_get columns "geometry") as [n1|];
    destruct (dict_get columns "geojson") as [n2|];
    destruct (dict_get columns "geojson_geometry") as [n3|];
    rewrite ?dict_get_set;
    repeat match goal with
           | |- context [?a =? n] => destruct (a =? n)
           end; reflexivity.
Qed.

(** What [geojson_to_ndjson] returns on well-formed records, for every
    column configuration. *)
Lemma geojson_to_ndjson_spec (lines : list json) (columns : dict string) :
  forallb wf_line lines = true ->
  exists rows schema,
    geojson_to_ndjson dumps lines columns = Ok (rows, schema)
    /\ (forall n, dict_get schema n
                  = expected_type columns (infer_column (column_values n lines)) n)
    /\ Forall2 (fun line_item row =>
                  forall n, dict_get row n = expected_field dumps columns line_item n)
         lines rows.
Proof.
  intros Hwf.
  destruct (lines_loop_spec columns lines [] [] Hwf) as (rows & schema & Hloop & Hs & Hrs).
  exists rows, (add_geo_types columns schema).
  unfold geojson_to_ndjson. rewrite Hloop. cbn [bind app]. split; [reflexivity|].
  split; [|exact Hrs].
  intros n. rewrite add_geo_types_get, Hs. reflexivity.
Qed.

End ConversionFacts.

(** ** Claims on type inference *)

(** C1 (the code departs from the claim).  Two records whose property [n] is
    [1] and then [null] leave the schema with [n] UNKNOWN, where the claim
    infers INTEGER; a float followed by a null is UNKNOWN as well, where the
    claim infers FLOAT; and a column of booleans is inferred INTEGER, where
    the claim infers BOOLEAN. *)
Theorem null_after_integer_infers_unknown (dumps : json -> string) :
  (exists rows schema,
      geojson_to_ndjson dumps
        [feature [("n", JInt 1)] (point 0 0); feature [("n", JNull)] (point 0 0)]
        [("geometry", "geometry")] = Ok (rows, schema)
      /\ dict_get schema "n" = Some "UNKNOWN")
  /\ infer_column [JInt 1; JNull] = Some "UNKNOWN"
  /\ infer_column [JFloat 7.5%Q; JInt 1; JNull] = Some "UNKNOWN"
  /\ infer_column [JBool true; JBool false] = Some "INTEGER".
Proof.
  split; [|repeat split; reflexivity].
  eexists. eexists. split; reflexivity.
Qed.

(** C2 (the code departs from the claim).  A null value replaces the concrete
    states INTEGER, FLOAT and BOOLEAN by UNKNOWN; only STRING survives it. *)
Theorem null_replaces_concrete_state :
  get_column_type JNull (Some "INTEGER") = "UNKNOWN"
  /\ get_column_type JNull (Some "FLOAT") = "UNKNOWN"
  /\ get_column_type JNull (Some "BOOLEAN") = "UNKNOWN"
  /\ get_column_type JNull (Some "STRING") = "STRING".
Proof. repeat split; reflexivity. Qed.

(** C3 (the code departs from the claim).  The values [1] and [null] infer
    UNKNOWN in that order and INTEGER in the other. *)
Theorem fold_depends_on_order :
  Permutation [JInt 1; JNull] [JNull; JInt 1]
  /\ infer_column [JInt 1; JNull] = Some "UNKNOWN"
  /\ infer_column [JNull; JInt 1] = Some "INTEGER".
Proof. split; [apply perm_swap | split; reflexivity]. Qed.

Lemma NoDup_pair {A : Type} (a b : A) : NoDup [a; b] -> a <> b.
Proof.
  intros H Heq. inversion H as [|? ? Hin _]; subst. apply Hin. left. reflexivity.
Qed.

Lemma NoDup_triple {A : Type} (a b c : A) :
  NoDup [a; b; c] -> a <> b /\ a <> c /\ b <> c.
Proof.
  intros H. inversion H as [|? ? Hin H']; subst.
  split; [|split].
  - intros ->. apply Hin. left. reflexivity.
  - intros ->. apply Hin. right. left. reflexivity.
  - apply NoDup_pair. exact H'.
Qed.

Lemma column_named_unconfigured (columns : dict string) (k n : string) :
  In k geo_keys -> ~ In n (configured_names columns) ->
  column_named columns k n = false.
Proof.
  intros Hk Hn. unfold column_named.
  destruct (dict_get columns k) as [name|] eqn:E; [|reflexivity].
  apply String.eqb_neq. intros ->. apply Hn.
  unfold configured_names. apply in_flat_map. exists k.
  split; [exact Hk|]. rewrite E. left. reflexivity.
Qed.

Lemma expected_type_unconfigured (columns : dict string) (inferred : option string)
    (n : string) :
  ~ In n (configured_names columns) -> expected_type columns inferred n = inferred.
Proof.
  intros Hn. unfold expected_type.
  rewrite !column_named_unconfigured by (assumption || (cbn; tauto)).
  reflexivity.
Qed.

Lemma expected_field_unconfigured (dumps : json -> string) (columns : dict string)
    (line_item : json) (n : string) :
  ~ In n (configured_names columns) ->
  expected_field dumps columns line_item n = property_value n line_item.
Proof.
  intros Hn. unfold expected_field.
  rewrite !column_named_unconfigured by (assumption || (cbn; tauto)).
  reflexivity.
Qed.

(** With distinct names, each configured key decides its own column. *)
Lemma column_named_distinct (columns : dict string) (k name : string) :
  NoDup (configured_names columns) ->
  In k geo_keys -> dict_get columns k = Some name ->
  forall k', In k' geo_keys ->
             column_named columns k' name = (k' =? k).
Proof.
  intros Hnd Hk Hget k' Hk'. unfold column_named.
  unfold configured_names in Hnd. cbn [geo_keys flat_map] in Hnd.
  cbn [geo_keys In] in Hk, Hk'.
  destruct Hk as [<-|[<-|[<-|[]]]]; destruct Hk' as [<-|[<-|[<-|[]]]];
    rewrite ?Hget, ?String.eqb_refl in *; try reflexivity;
    match goal with
    | |- context [dict_get columns ?x] =>
        destruct (dict_get columns x) as [other|] eqn:E; [|reflexivity]
    end;
    cbn [String.eqb Ascii.eqb Bool.eqb];
    apply String.eqb_neq; intros ->;
    repeat match goal with
           | H : context [dict_get columns ?x] |- _ =>
               destruct (dict_get columns x); cbn [app] in H
           end;
    repeat match goal with
           | H : NoDup [_; _; _] |- _ => apply NoDup_triple in H
           | H : NoDup [_; _] |- _ => apply NoDup_pair in H
           | H : Some _ = Some _ |- _ => inversion H; subst; clear H
           end;
    try discriminate; tauto.
Qed.

Lemma wf_line_geo_payload (line_item : json) (k : string) :
  wf_line line_item = true -> exists g, geo_payload k line_item = Some g.
Proof.
  intros Hwf. unfold geo_payload. destruct (k =? "geojson"); [eauto|].
  destruct line_item as [| | | | | |members]; try discriminate.
  cbn [wf_line] in Hwf. apply andb_true_iff in Hwf as [Hg _].
  unfold dict_mem in Hg. destruct (dict_get members "geometry"); [eauto|discriminate].
Qed.

Lemma expected_type_configured (columns : dict string) (inferred : option string)
    (k name : string) :
  NoDup (configured_names columns) ->
  In k geo_keys -> dict_get columns k = Some name ->
  expected_type columns inferred name = Some (geo_type k).
Proof.
  intros Hnd Hk Hget. unfold expected_type.
  rewrite !(column_named_distinct columns k name Hnd Hk Hget) by (cbn; tauto).
  cbn [geo_keys In] in Hk. destruct Hk as [<-|[<-|[<-|[]]]]; reflexivity.
Qed.

Lemma expected_field_configured (dumps : json -> string) (columns : dict string)
    (line_item : json) (k name : string) :
  NoDup (configured_names columns) ->
  In k geo_keys -> dict_get columns k = Some name ->
  expected_field dumps columns line_item name
  = option_map (fun g => JStr (dumps g)) (geo_payload k line_item).
Proof.
  intros Hnd Hk Hget. unfold expected_field.
  rewrite !(column_named_distinct columns k name Hnd Hk Hget) by (cbn; tauto).
  cbn [geo_keys In] in Hk. destruct Hk as [<-|[<-|[<-|[]]]]; reflexivity.
Qed.

(** ** Claims on the geometry-derived columns *)

(** C4 (as stated, refuted).  When [geometry] and [geojson] are configured
    under one name, the schema holds STRING under it, not GEOGRAPHY: the
    later assignment replaces the earlier one. *)
Lemma shared_name_loses_geography :
  exists rows schema,
    geojson_to_ndjson dumps_kind [feature [] (point 1 2)]
      [("geometry", "g"); ("geojson", "g")] = Ok (rows, schema)
    /\ dict_get [("geometry", "g"); ("geojson", "g")] "geometry" = Some "g"
    /\ dict_get schema "g" = Some "STRING"
    /\ dict_get schema "g" <> Some (geo_type "geometry").
Proof.
  eexists. eexists. split; [reflexivity|].
  split; [reflexivity|]. split; [reflexivity|]. discriminate.
Qed.

(** C4 (amended).  For every column configuration whose configured names are
    pairwise distinct and every sequence of well-formed records, the
    conversion returns rows and a schema in which each configured key has, under
    its configured name, its fixed type (GEOGRAPHY for [geometry], STRING for
    [geojson] and [geojson_geometry]) and, in each row, the serialised
    geometry or record; under every other name the schema holds the type
    inferred from the properties and the row holds the property, so a key
    left out of the configuration adds nothing. *)
Theorem geometry_columns_as_configured (dumps : json -> string)
    (lines : list json) (columns : dict string) :
  forallb wf_line lines = true ->
  NoDup (configured_names columns) ->
  exists rows schema,
    geojson_to_ndjson dumps lines columns = Ok (rows, schema)
    /\ (forall k name, In k geo_keys -> dict_get columns k = Some name ->
                       dict_get schema name = Some (geo_type k))
    /\ (forall n, ~ In n (configured_names columns) ->
                  dict_get schema n = infer_column (column_values n lines))
    /\ Forall2 (fun line_item row =>
                  (forall k name, In k geo_keys -> dict_get columns k = Some name ->
                                  exists g, geo_payload k line_item = Some g
                                            /\ dict_get row name = Some (JStr (dumps g)))
                  /\ (forall n, ~ In n (configured_names columns) ->
                                dict_get row n = property_value n line_item))
         lines rows.
Proof.
  intros Hwf Hnd.
  destruct (geojson_to_ndjson_spec dumps lines columns Hwf)
    as (rows & schema & Heq & Hs & Hrows).
  exists rows, schema. split; [exact Heq|]. split; [|split].
  - intros k name Hk Hget. rewrite Hs.
    apply expected_type_configured; assumption.
  - intros n Hn. rewrite Hs. apply expected_type_unconfigured. exact Hn.
  - rewrite forallb_forall in Hwf. clear Heq Hs.
    induction Hrows as [|line_item row lines' rows' Hrow _ IH]; constructor.
    + split.
      * intros k name Hk Hget.
        destruct (wf_line_geo_payload line_item k) as (g & Hg);
          [apply Hwf; left; reflexivity|].
        exists g. split; [exact Hg|].
        rewrite Hrow, (expected_field_configured dumps columns line_item k name Hnd Hk Hget).
        rewrite Hg. reflexivity.
      * intros n Hn. rewrite Hrow. apply expected_field_unconfigured. exact Hn.
    + apply IH. intros x Hx. apply Hwf. right. exact Hx.
Qed.

(** The amended C4 at the configuration [{"geojson_geometry": "geom_json"}]. *)
Lemma geometry_columns_as_configured_witness :
  exists rows schema,
    geojson_to_ndjson dumps_kind [feature [("pop", JInt 5)] (point 1 2)]
      [("geojson_geometry", "geom_json")] = Ok (rows, schema)
    /\ dict_get schema "geom_json" = Some "STRING"
    /\ dict_get schema "geometry" = None.
Proof.
  destruct (geometry_columns_as_configured dumps_kind
              [feature [("pop", JInt 5)] (point 1 2)]
              [("geojson_geometry", "geom_json")])
    as (rows & schema & Heq & Hgeo & Hother & _).
  - reflexivity.
  - repeat constructor; simpl; tauto.
  - exists rows, schema. split; [exact Heq|]. split.
    + apply (Hgeo "geojson_geometry" "geom_json"); [cbn; tauto | reflexivity].
    + rewrite (Hother "geometry"); [reflexivity|].
      cbn. intros [H|[]]. discriminate.
Defined.

(** C5.  Three well-formed records whose property [pop] is [5], [7.5] and
    ["n/a"] in that order give [pop] the type STRING in the schema, under
    every column configuration that does not use the name [pop]. *)
Theorem pop_column_is_string (dumps : json -> string) (r1 r2 r3 : json)
    (columns : dict string) :
  forallb wf_line [r1; r2; r3] = true ->
  property_value "pop" r1 = Some (JInt 5) ->
  property_value "pop" r2 = Some (JFloat 7.5%Q) ->
  property_value "pop" r3 = Some (JStr "n/a") ->
  ~ In "pop" (configured_names columns) ->
  infer_column [JInt 5; JFloat 7.5%Q; JStr "n/a"] = Some "STRING"
  /\ exists rows schema,
      geojson_to_ndjson dumps [r1; r2; r3] columns = Ok (rows, schema)
      /\ dict_get schema "pop" = Some "STRING".
Proof.
  intros Hwf H1 H2 H3 Hn. split; [reflexivity|].
  destruct (geojson_to_ndjson_spec dumps [r1; r2; r3] columns Hwf)
    as (rows & schema & Heq & Hs & _).
  exists rows, schema. split; [exact Heq|].
  rewrite Hs, (expected_type_unconfigured _ _ _ Hn).
  unfold column_values. cbn [flat_map]. rewrite H1, H2, H3. reflexivity.
Qed.

Lemma pop_column_is_string_witness :
  exists rows schema,
    geojson_to_ndjson dumps_kind
      [feature [("pop", JInt 5)] (point 0 0);
       feature [("pop", JFloat 7.5%Q)] (point 0 1);
       feature [("pop", JStr "n/a")] (point 1 1)]
      [("geometry", "geometry")] = Ok (rows, schema)
    /\ dict_get schema "pop" = Some "STRING".
Proof.
  apply (pop_column_is_string dumps_kind
           (feature [("pop", JInt 5)] (point 0 0))
           (feature [("pop", JFloat 7.5%Q)] (point 0 1))
           (feature [("pop", JStr "n/a")] (point 1 1))
           [("geometry", "geometry")]); try reflexivity.
  cbn. intros [H|[]]. discriminate.
Defined.

(** ** Strings *)

Lemma str_app_assoc (a b c : string) : (a ++ b) ++ c = a ++ (b ++ c).
Proof. induction a as [|x a IH]; simpl; [reflexivity | rewrite IH; reflexivity]. Qed.

Lemma str_app_nil_r (a : string) : a ++ "" = a.
Proof. induction a as [|x a IH]; simpl; [reflexivity | rewrite IH; reflexivity]. Qed.

Lemma str_length_app (a b : string) :
  String.length (a ++ b) = String.length a + String.length b.
Proof. induction a as [|x a IH]; simpl; [reflexivity | rewrite IH; reflexivity]. Qed.

Lemma str_app_inv_head (a b c : string) : a ++ b = a ++ c -> b = c.
Proof.
  induction a as [|x a IH]; simpl; intros H; [exact H|].
  inversion H. auto.
Qed.

Lemma list_ascii_of_string_app (a b : string) :
  list_ascii_of_string (a ++ b)
  = (list_ascii_of_string a ++ list_ascii_of_string b)%list.
Proof. induction a as [|x a IH]; simpl; [reflexivity | rewrite IH; reflexivity]. Qed.

Lemma str_app_inv_tail (a b c : string) : a ++ c = b ++ c -> a = b.
Proof.
  intros H. apply (f_equal list_ascii_of_string) in H.
  rewrite !list_ascii_of_string_app in H. apply app_inv_tail in H.
  rewrite <- (string_of_list_ascii_of_string a), <- (string_of_list_ascii_of_string b).
  rewrite H. reflexivity.
Qed.

Lemma substring_prefix (a b : string) :
  String.substring 0 (String.length a) (a ++ b) = a.
Proof.
  induction a as [|x a IH]; simpl.
  - destruct b; reflexivity.
  - rewrite IH. reflexivity.
Qed.

Lemma drop_last2_app (a b : string) :
  String.length b = 2 -> drop_last2 (a ++ b) = a.
Proof.
  intros Hb. unfold drop_last2. rewrite str_length_app, Hb.
  replace (String.length a + 2 - 2) with (String.length a) by lia.
  apply substring_prefix.
Qed.

(** ** Decimal numerals *)

Lemma zeros_length (n : nat) : String.length (zeros n) = n.
Proof. induction n as [|n IH]; simpl; [reflexivity | rewrite IH; reflexivity]. Qed.

Lemma nat_of_str_zeros (n : nat) (s : string) :
  nat_of_str (zeros n ++ s) = nat_of_str s.
Proof.
  induction n as [|n IH]; [reflexivity|].
  unfold nat_of_str in *. cbn [zeros append NilEmpty.uint_of_string].
  change ("0" ++ zeros n ++ s) with (String "0" (zeros n ++ s)).
  cbn [NilEmpty.uint_of_string]. rewrite <- IH.
  destruct (NilEmpty.uint_of_string (zeros n ++ s)); reflexivity.
Qed.

Lemma nat_of_str_of_nat (i : nat) : nat_of_str (str_of_nat i) = Some i.
Proof.
  unfold nat_of_str, str_of_nat. rewrite NilEmpty.usu. simpl.
  rewrite DecimalNat.Unsigned.of_to. reflexivity.
Qed.

(** [format_02d] prints the decimal numeral of its argument, on at least
    two characters. *)
Lemma format_02d_reads_back (i : nat) : nat_of_str (format_02d i) = Some i.
Proof. unfold format_02d. rewrite nat_of_str_zeros. apply nat_of_str_of_nat. Qed.

Lemma format_02d_width (i : nat) : 2 <= String.length (format_02d i).
Proof. unfold format_02d. rewrite str_length_app, zeros_length. lia. Qed.

Lemma format_02d_unpadded (i : nat) :
  2 <= String.length (str_of_nat i) -> format_02d i = str_of_nat i.
Proof.
  intros H. unfold format_02d.
  replace (2 - String.length (str_of_nat i)) with 0 by lia. reflexivity.
Qed.

Lemma format_02d_injective (i j : nat) : format_02d i = format_02d j -> i = j.
Proof.
  intros H. apply (f_equal nat_of_str) in H.
  rewrite !format_02d_reads_back in H. congruence.
Qed.

Lemma numbered_path_injective (path_root extension : string) (i j : nat) :
  numbered_path path_root extension i = numbered_path path_root extension j ->
  i = j.
Proof.
  unfold numbered_path. intros H.
  apply str_app_inv_head, str_app_inv_head, str_app_inv_tail in H.
  apply format_02d_injective. exact H.
Qed.

(** ** The search for a free path *)

Lemma path_exists_In (fs : list string) (p : string) :
  path_exists fs p = true <-> In p fs.
Proof.
  unfold path_exists. rewrite existsb_exists. split.
  - intros (x & Hx & Heq). apply String.eqb_eq in Heq. subst. exact Hx.
  - intros H. exists p. split; [exact H | apply String.eqb_refl].
Qed.

Lemma NoDup_map_injective {A B : Type} (f : A -> B) (l : list A) :
  (forall x y, f x = f y -> x = y) -> NoDup l -> NoDup (map f l).
Proof.
  intros Hinj. induction 1 as [|x l Hx _ IH]; simpl; constructor; [|exact IH].
  intros Hin. apply in_map_iff in Hin as (y & Hy & Hyl).
  apply Hinj in Hy. subst. contradiction.
Qed.

Section SafePath.

Variables (fs : list string) (path_root extension : string).

Let candidate (i : nat) : string := numbered_path path_root extension i.

(** Not all of the first [length fs + 1] numbered paths exist. *)
Lemma numbered_paths_pigeonhole :
  ~ (forall m, 1 <= m <= S (List.length fs) -> path_exists fs (candidate m) = true).
Proof.
  intros Hall.
  assert (Hincl : incl (map candidate (seq 1 (S (List.length fs)))) fs).
  { intros p Hp. apply in_map_iff in Hp as (m & <- & Hm).
    apply in_seq in Hm. apply path_exists_In, Hall. lia. }
  apply NoDup_incl_length in Hincl.
  - rewrite length_map, length_seq in Hincl. lia.
  - apply NoDup_map_injective; [|apply seq_NoDup].
    intros x y. apply numbered_path_injective.
Qed.

(** A bounded search either finds the first free numbered path above [i] or
    sees that the next [k] all exist. *)
Lemma first_free_within (k i : nat) :
  (forall m, i < m <= i + k -> path_exists fs (candidate m) = true)
  \/ (exists n, i < n <= i + k
                /\ path_exists fs (candidate n) = false
                /\ forall m, i < m < n -> path_exists fs (candidate m) = true).
Proof.
  induction k as [|k IH].
  - left. intros m Hm. lia.
  - destruct IH as [Hall|Hfound].
    + destruct (path_exists fs (candidate (i + S k))) eqn:E.
      * left. intros m Hm.
        destruct (Nat.eq_dec m (i + S k)) as [->|Hne]; [exact E | apply Hall; lia].
      * right. exists (i + S k). split; [lia|]. split; [exact E|].
        intros m Hm. apply Hall. lia.
    + right. destruct Hfound as (n & Hn & Hfree & Hbelow).
      exists n. split; [lia|]. auto.
Qed.

Lemma first_free_exists :
  exists n, 1 <= n <= S (List.length fs)
            /\ path_exists fs (candidate n) = false
            /\ forall m, 1 <= m < n -> path_exists fs (candidate m) = true.
Proof.
  destruct (first_free_within (S (List.length fs)) 0) as [Hall|(n & Hn & Hfree & Hbelow)].
  - exfalso. apply numbered_paths_pigeonhole. intros m Hm. apply Hall. lia.
  - exists n. split; [lia|]. split; [exact Hfree|].
    intros m Hm. apply Hbelow. lia.
Qed.

Lemma safe_filepath_loop_stops (fuel i : nat) (can_overwrite : bool) (p : string) :
  is_output_file_safe fs p can_overwrite = true ->
  safe_filepath_loop fuel fs path_root extension can_overwrite i p = Ok p.
Proof. intros H. destruct fuel; simpl; rewrite H; reflexivity. Qed.

Lemma safe_filepath_loop_reaches (d : nat) :
  forall (fuel i : nat) (p : string),
    S d <= fuel ->
    path_exists fs p = true ->
    (forall m, i < m < i + S d -> path_exists fs (candidate m) = true) ->
    path_exists fs (candidate (i + S d)) = false ->
    safe_filepath_loop fuel fs path_root extension false i p
    = Ok (candidate (i + S d)).
Proof.
  induction d as [|d IH]; intros fuel i p Hfuel Hp Hbelow Hfree;
    (destruct fuel as [|fuel]; [lia|]);
    cbn [safe_filepath_loop]; unfold is_output_file_safe at 1;
    rewrite Hp; cbn [negb orb].
  - apply safe_filepath_loop_stops. unfold is_output_file_safe.
    fold (candidate (i + 1)). rewrite Hfree. reflexivity.
  - fold (candidate (i + 1)).
    replace (i + S (S d)) with ((i + 1) + S d) in * by lia.
    apply IH.
    + lia.
    + apply Hbelow. lia.
    + intros m Hm. apply Hbelow. lia.
    + exact Hfree.
Qed.

End SafePath.

(** ** Claim on safe paths *)

(** C7.  Over any finite set [fs] of existing paths and with enough
    iterations allowed (more than there are existing paths),
    [get_safe_filepath] without overwrite returns the target unchanged when it
    does not exist, and otherwise the numbered path [root_NN.ext] of the
    least [NN >= 1] that does not exist; with overwrite it returns the target.
    The number is printed in decimal on at least two characters, [_01] for 1
    and [_100] for 100. *)
Theorem get_safe_filepath_first_free (fs : list string) (initial_filepath : string)
    (fuel : nat) :
  List.length fs < fuel ->
  let path_root := fst (splitext initial_filepath) in
  let extension := snd (splitext initial_filepath) in
  (path_exists fs initial_filepath = false ->
   get_safe_filepath fuel fs initial_filepath false true = Ok initial_filepath)
  /\ (path_exists fs initial_filepath = true ->
      exists n,
        1 <= n
        /\ get_safe_filepath fuel fs initial_filepath false true
           = Ok (numbered_path path_root extension n)
        /\ path_exists fs (numbered_path path_root extension n) = false
        /\ forall m, 1 <= m < n ->
                     path_exists fs (numbered_path path_root extension m) = true)
  /\ get_safe_filepath fuel fs initial_filepath true true = Ok initial_filepath
  /\ (forall i, numbered_path path_root extension i
                = path_root ++ "_" ++ format_02d i ++ extension
                /\ 2 <= String.length (format_02d i)
                /\ nat_of_str (format_02d i) = Some i)
  /\ format_02d 1 = "01" /\ format_02d 99 = "99" /\ format_02d 100 = "100".
Proof.
  intros Hfuel path_root extension. unfold get_safe_filepath.
  destruct (splitext initial_filepath) as [r e] eqn:Hsplit.
  subst path_root extension. cbn [fst snd negb].
  split; [|split; [|split; [|split]]].
  - intros Hfree. apply safe_filepath_loop_stops.
    unfold is_output_file_safe. rewrite Hfree. reflexivity.
  - intros Hexists.
    destruct (first_free_exists fs r e) as (n & Hn & Hfree & Hbelow).
    exists n. split; [lia|]. split; [|split; [exact Hfree | exact Hbelow]].
    destruct n as [|d]; [lia|].
    apply (safe_filepath_loop_reaches fs r e d fuel 0 initial_filepath).
    + lia.
    + exact Hexists.
    + intros m Hm. apply Hbelow. lia.
    + exact Hfree.
  - apply safe_filepath_loop_stops. reflexivity.
  - intros i. split; [reflexivity|]. split.
    + apply format_02d_width.
    + apply format_02d_reads_back.
  - repeat split; reflexivity.
Qed.

(** C7 on a directory holding [out/a.json] and [out/a_01.json]: the target
    [out/a.json] becomes [out/a_02.json], and the free target [out/b.json]
    is kept. *)
Lemma get_safe_filepath_first_free_witness :
  get_safe_filepath 3 ["out/a.json"; "out/a_01.json"] "out/a.json" false true
  = Ok "out/a_02.json"
  /\ get_safe_filepath 3 ["out/a.json"; "out/a_01.json"] "out/b.json" false true
     = Ok "out/b.json".
Proof.
  split.
  - destruct (get_safe_filepath_first_free
                ["out/a.json"; "out/a_01.json"] "out/a.json" 3)
      as (_ & Hnumbered & _); [simpl; lia|].
    destruct (Hnumbered eq_refl) as (n & Hn & Heq & Hfree & Hbelow).
    destruct n as [|[|[|n]]].
    + inversion Hn.
    + discriminate Hfree.
    + exact Heq.
    + discriminate (Hbelow 2 (conj (le_S 1 1 (le_n 1)) (le_n_S 2 (S (S n)) (le_n_S 1 (S n) (le_n_S 0 n (Nat.le_0_l n)))))).
  - destruct (get_safe_filepath_first_free
                ["out/a.json"; "out/a_01.json"] "out/b.json" 3)
      as (Hfree & _); [simpl; lia|].
    exact (Hfree eq_refl).
Defined.

(** ** Rendering the schema *)

Lemma dict_set_keys_unique {V : Type} (d : dict V) (k : string) (v : V) :
  unique_keys d = true -> unique_keys (dict_set d k v) = true.
Proof.
  induction d as [|[k0 v0] d IH]; simpl; intros H; [reflexivity|].
  apply andb_true_iff in H as [Hk Hd].
  destruct (String.eqb_spec k0 k) as [->|Hne]; simpl.
  - rewrite Hk, Hd. reflexivity.
  - rewrite (IH Hd), andb_true_r. unfold dict_mem in *.
    rewrite dict_get_set_other by congruence. exact Hk.
Qed.





Lemma fold_entries_join {A : Type} (f : A -> string) (sep : string) (entries : list A) :
  forall text, entries <> [] ->
    fold_left (fun t x => t ++ (f x ++ sep)) entries text
    = text ++ join sep (map f entries) ++ sep.
Proof.
  induction entries as [|x l IH]; intros text Hne; [congruence|].
  change (fold_left (fun t x => t ++ (f x ++ sep)) (x :: l) text)
    with (fold_left (fun t x => t ++ (f x ++ sep)) l (text ++ (f x ++ sep))).
  destruct l as [|y l'].
  - reflexivity.
  - rewrite IH by discriminate.
    change (join sep (map f (x :: y :: l')))
      with (f x ++ sep ++ join sep (map f (y :: l'))).
    rewrite !str_app_assoc. reflexivity.
Qed.

Lemma schema_text_loop_entries (schema : dict string) (entries : list (string * string)) :
  forall (text : string) (unknown : list string),
    (forall kv, In kv entries -> dict_get schema (fst kv) = Some (snd kv)) ->
    schema_text_loop schema (map fst entries) text unknown
    = Ok (fold_left (fun t kv => t ++ (schema_entry kv ++ entry_separator)) entries text,
          (unknown ++ unknown_columns_of entries)%list).
Proof.
  induction entries as [|[k v] entries IH]; intros text unknown Hget.
  - cbn. rewrite app_nil_r. reflexivity.
  - cbn [map fst schema_text_loop]. unfold dict_item.
    assert (Hk : dict_get schema k = Some v)
      by (apply (Hget (k, v)); left; reflexivity).
    rewrite Hk. cbn [bind snd fst].
    rewrite IH by (intros kv Hkv; apply Hget; right; exact Hkv).
    cbn [fold_left]. f_equal. f_equal.
    + unfold schema_entry, entry_separator. cbn [fst snd].
      rewrite !str_app_assoc. reflexivity.
    + unfold unknown_columns_of. cbn [filter snd].
      destruct (v =? "UNKNOWN"); cbn [map fst].
      * rewrite <- app_assoc. reflexivity.
      * reflexivity.
Qed.

(** The text of the plaintext schema file and the columns reported. *)
Lemma render_schema_spec (schema : dict string) :
  unique_keys schema = true ->
  render_schema schema = Ok (plaintext_schema schema, unknown_columns_of schema).
Proof.
  intros Hu. unfold render_schema, dict_keys.
  rewrite schema_text_loop_entries
    by (intros [k v] Hkv; apply dict_get_unique_entry; assumption).
  cbn [bind app]. f_equal. f_equal. unfold plaintext_schema.
  destruct schema as [|kv schema]; [reflexivity|].
  rewrite fold_entries_join by discriminate.
  cbn [append]. apply drop_last2_app. reflexivity.
Qed.

Lemma unknown_columns_of_In (schema : dict string) (k : string) :
  unique_keys schema = true ->
  (In k (unknown_columns_of schema) <-> dict_get schema k = Some "UNKNOWN").
Proof.
  intros Hu. unfold unknown_columns_of. rewrite in_map_iff. split.
  - intros ([k' v] & <- & Hin). apply filter_In in Hin as [Hin Hv].
    cbn [snd fst] in *. apply String.eqb_eq in Hv. subst.
    apply dict_get_unique_entry; assumption.
  - intros Hget. exists (k, "UNKNOWN"). split; [reflexivity|].
    apply filter_In. split; [|reflexivity].
    clear Hu. induction schema as [|[k0 v0] schema IH]; [discriminate|].
    cbn [dict_get] in Hget. destruct (String.eqb_spec k0 k) as [->|Hne].
    + inversion Hget. left. reflexivity.
    + right. auto.
Qed.

Lemma schema_entry_In (schema : dict string) (k v : string) :
  dict_get schema k = Some v -> In (k ++ ":" ++ v) (map schema_entry schema).
Proof.
  induction schema as [|[k0 v0] schema IH]; [discriminate|].
  cbn [dict_get]. destruct (String.eqb_spec k0 k) as [->|Hne]; intros H.
  - inversion H; subst. left. reflexivity.
  - right. auto.
Qed.

(** ** Substrings *)

Lemma prefix_app (a b : string) : String.prefix a (a ++ b) = true.
Proof.
  induction a as [|x a IH]; simpl.
  - destruct b; reflexivity.
  - destruct (ascii_dec x x); [exact IH | congruence].
Qed.

Lemma prefix_inv (a : string) :
  forall h, String.prefix a h = true -> exists post, h = a ++ post.
Proof.
  induction a as [|x a IH]; intros h H.
  - exists h. reflexivity.
  - destruct h as [|y h]; [discriminate|]. simpl in H.
    destruct (ascii_dec x y) as [->|]; [|discriminate].
    destruct (IH h H) as (post & ->). exists post. reflexivity.
Qed.

(** [str_in] is containment as a substring. *)
Lemma str_in_spec (needle haystack : string) :
  str_in needle haystack = true
  <-> exists pre post, haystack = pre ++ needle ++ post.
Proof.
  split.
  - induction haystack as [|c h IH]; cbn [str_in]; intros H.
    + rewrite orb_false_r in H. apply prefix_inv in H as (post & ->).
      exists "", post. reflexivity.
    + apply orb_true_iff in H as [H|H].
      * apply prefix_inv in H as (post & ->). exists "", post. reflexivity.
      * destruct (IH H) as (pre & post & ->). exists (String c pre), post. reflexivity.
  - intros (pre & post & ->). induction pre as [|c pre IH].
    + cbn [append]. destruct (needle ++ post) eqn:E; cbn [str_in];
        rewrite <- E, prefix_app; reflexivity.
    + cbn [append str_in]. rewrite IH. apply orb_true_r.
Qed.

Lemma str_in_join (sep k : string) (items : list string) :
  In k items -> str_in k (join sep items) = true.
Proof.
  intros Hin. apply str_in_spec.
  induction items as [|x [|y l] IH]; [destruct Hin| |].
  - destruct Hin as [->|[]]. exists "", "". cbn. rewrite str_app_nil_r. reflexivity.
  - destruct Hin as [->|Hin].
    + exists "", (sep ++ join sep (y :: l)). reflexivity.
    + destruct (IH Hin) as (pre & post & Heq).
      exists (x ++ sep ++ pre), post.
      change (join sep (x :: y :: l)) with (x ++ sep ++ join sep (y :: l)).
      rewrite Heq, !str_app_assoc. reflexivity.
Qed.

(** The warning names every column it is given. *)
Lemma unknown_warning_lists (unknown_columns : list string) (k : string) :
  In k unknown_columns -> str_in k (unknown_warning unknown_columns) = true.
Proof.
  intros Hin. apply str_in_spec.
  apply (str_in_join ", ") in Hin. apply str_in_spec in Hin as (pre & post & Heq).
  exists (warning_header ++ pre), (post ++ warning_footer).
  unfold unknown_warning. rewrite Heq.
  generalize warning_header, warning_footer. intros header footer.
  rewrite !str_app_assoc. reflexivity.
Qed.

(** ** Writing the schema files *)

Lemma get_safe_filepath_returns (fs : list string) (initial_filepath : string)
    (fuel : nat) (can_overwrite : bool) :
  List.length fs < fuel ->
  exists p,
    get_safe_filepath fuel fs initial_filepath can_overwrite true = Ok p
    /\ (can_overwrite = true -> p = initial_filepath)
    /\ (can_overwrite = false -> path_exists fs p = false).
Proof.
  intros Hfuel. unfold get_safe_filepath.
  destruct (splitext initial_filepath) as [r e]. cbn [negb].
  destruct can_overwrite.
  - exists initial_filepath. split; [|split; [reflexivity | discriminate]].
    apply safe_filepath_loop_stops. reflexivity.
  - destruct (path_exists fs initial_filepath) eqn:Hexists.
    + destruct (first_free_exists fs r e) as (n & Hn & Hfree & Hbelow).
      exists (numbered_path r e n). split; [|split; [discriminate | intros _; exact Hfree]].
      destruct n as [|d]; [lia|].
      apply (safe_filepath_loop_reaches fs r e d fuel 0 initial_filepath);
        [lia | exact Hexists | intros m Hm; apply Hbelow; lia | exact Hfree].
    + exists initial_filepath. split; [|split; [discriminate | intros _; exact Hexists]].
      apply safe_filepath_loop_stops. unfold is_output_file_safe.
      rewrite Hexists. reflexivity.
Qed.

Lemma write_file_paths_length (w : world) (path : string) (c : content) :
  List.length (paths (write_file w path c)) <= S (List.length (paths w)).
Proof.
  cbn [write_file paths]. destruct (path_exists (paths w) path); [lia|].
  rewrite length_app. simpl. lia.
Qed.

Lemma write_file_path_exists (w : world) (path : string) (c : content) :
  path_exists (paths (write_file w path c)) path = true.
Proof.
  cbn [write_file paths]. destruct (path_exists (paths w) path) eqn:E; [exact E|].
  apply path_exists_In, in_or_app. right. left. reflexivity.
Qed.

(** What [save_schema_files] leaves behind: the two files, under distinct
    paths, and the lines printed. *)
Lemma save_schema_files_spec (fuel : nat) (w : world) (schema : dict string)
    (path_root : string) (can_overwrite : bool) :
  S (List.length (paths w)) < fuel ->
  unique_keys schema = true ->
  exists w' json_filepath plaintext_filepath,
    save_schema_files fuel w schema path_root can_overwrite = Ok w'
    /\ json_filepath <> plaintext_filepath
    /\ dict_get (written w') json_filepath = Some (JsonDump schema)
    /\ dict_get (written w') plaintext_filepath = Some (Text (plaintext_schema schema))
    /\ stdout w'
       = (stdout w
          ++ [saving_json_message json_filepath;
              saving_plaintext_message plaintext_filepath]
          ++ match unknown_columns_of schema with
             | [] => []
             | unknown_columns => [unknown_warning unknown_columns]
             end)%list.
Proof.
  intros Hfuel Hu. unfold save_schema_files.
  destruct (get_safe_filepath_returns (paths w) (path_root ++ "_SCHEMA.json")
              fuel can_overwrite) as (jp & Hjp & Hjp_over & _); [lia|].
  rewrite Hjp. cbn [bind].
  set (w1 := write_file (print w (saving_json_message jp)) jp (JsonDump schema)).
  destruct (get_safe_filepath_returns (paths w1) (path_root ++ "_SCHEMA.txt")
              fuel can_overwrite) as (tp & Htp & Htp_over & Htp_free).
  { pose proof (write_file_paths_length (print w (saving_json_message jp)) jp
                  (JsonDump schema)) as Hlen.
    fold w1 in Hlen. cbn [print paths] in Hlen. lia. }
  rewrite Htp. cbn [bind]. rewrite (render_schema_spec schema Hu). cbn [bind].
  assert (Hne : jp <> tp).
  { destruct can_overwrite.
    - rewrite (Hjp_over eq_refl), (Htp_over eq_refl). intros Heq.
      apply str_app_inv_head in Heq. discriminate.
    - intros ->. specialize (Htp_free eq_refl).
      unfold w1 in Htp_free. rewrite write_file_path_exists in Htp_free.
      discriminate. }
  set (w3 := write_file (print w1 (saving_plaintext_message tp)) tp
               (Text (plaintext_schema schema))).
  assert (Hjson : dict_get (written w3) jp = Some (JsonDump schema)).
  { unfold w3, w1. cbn [write_file print written].
    rewrite dict_get_set_other by congruence. apply dict_get_set_same. }
  assert (Htext : dict_get (written w3) tp = Some (Text (plaintext_schema schema))).
  { unfold w3. cbn [write_file written]. apply dict_get_set_same. }
  assert (Hout : stdout w3
                 = (stdout w ++ [saving_json_message jp; saving_plaintext_message tp])%list).
  { unfold w3, w1. cbn [write_file print stdout]. rewrite <- app_assoc. reflexivity. }
  destruct (unknown_columns_of schema) as [|u us] eqn:Hunknown; cbn [List.length Nat.ltb Nat.leb].
  - exists w3, jp, tp. rewrite app_nil_r. auto.
  - exists (print w3 (unknown_warning (u :: us))), jp, tp.
    cbn [print written stdout]. rewrite Hout, <- app_assoc. auto.
Qed.

Lemma all_null_infers_unknown (values : list json) :
  values <> [] -> forallb is_none values = true ->
  infer_column values = Some "UNKNOWN".
Proof.
  induction values as [|value l IH] using rev_ind; intros Hne Hall; [congruence|].
  rewrite forallb_app in Hall. apply andb_true_iff in Hall as [Hl Hv].
  cbn [forallb] in Hv. rewrite andb_true_r in Hv.
  destruct value; try discriminate. rewrite infer_column_snoc.
  destruct l as [|a l'].
  - reflexivity.
  - rewrite IH by (assumption || discriminate). reflexivity.
Qed.

Lemma plaintext_schema_last (rest : dict string) (k v : string) :
  exists pre, plaintext_schema (rest ++ [(k, v)])%list = pre ++ (k ++ ":" ++ v).
Proof.
  unfold plaintext_schema. induction rest as [|kv rest IH].
  - exists "". reflexivity.
  - destruct IH as (pre & Hpre).
    exists (schema_entry kv ++ entry_separator ++ pre).
    cbn [app map]. destruct (map schema_entry (rest ++ [(k, v)])) as [|e es] eqn:E.
    + destruct rest; discriminate.
    + change (join entry_separator (schema_entry kv :: e :: es))
        with (schema_entry kv ++ entry_separator ++ join entry_separator (e :: es)).
      rewrite Hpre, !str_app_assoc. reflexivity.
Qed.

(** ** Claims on the schema files *)

(** C6.  For every non-empty schema, the text written to the plaintext
    schema file is the entries [name:TYPE] joined by a comma and a line break,
    so it ends with its last entry, with no comma or line break after it; the
    schema [{"a": "STRING", "b": "INTEGER"}] renders as [a:STRING,] line break
    [b:INTEGER]. *)
Theorem plaintext_schema_is_joined_entries (fuel : nat) (w : world)
    (schema : dict string) (path_root : string) (can_overwrite : bool) :
  S (List.length (paths w)) < fuel ->
  unique_keys schema = true ->
  schema <> [] ->
  render_schema schema
  = Ok (join ("," ++ newline) (map (fun kv => fst kv ++ ":" ++ snd kv) schema),
        unknown_columns_of schema)
  /\ (exists w' plaintext_filepath,
         save_schema_files fuel w schema path_root can_overwrite = Ok w'
         /\ dict_get (written w') plaintext_filepath
            = Some (Text (join ("," ++ newline)
                            (map (fun kv => fst kv ++ ":" ++ snd kv) schema))))
  /\ (forall rest k v, schema = (rest ++ [(k, v)])%list ->
         exists pre,
           join ("," ++ newline) (map (fun kv => fst kv ++ ":" ++ snd kv) schema)
           = pre ++ (k ++ ":" ++ v))
  /\ render_schema [("a", "STRING"); ("b", "INTEGER")]
     = Ok ("a:STRING," ++ newline ++ "b:INTEGER", []).
Proof.
  intros Hfuel Hu Hne.
  split; [apply render_schema_spec; exact Hu|].
  split; [|split; [|reflexivity]].
  - destruct (save_schema_files_spec fuel w schema path_root can_overwrite Hfuel Hu)
      as (w' & jp & tp & Heq & _ & _ & Htext & _).
    exists w', tp. split; [exact Heq | exact Htext].
  - intros rest k v ->. apply plaintext_schema_last.
Qed.

Lemma plaintext_schema_is_joined_entries_witness :
  render_schema [("a", "STRING"); ("b", "INTEGER")]
  = Ok ("a:STRING," ++ newline ++ "b:INTEGER", []).
Proof.
  destruct (plaintext_schema_is_joined_entries 2 empty_world
              [("a", "STRING"); ("b", "INTEGER")] "out/roads" false)
    as (Hrender & _).
  - simpl. lia.
  - reflexivity.
  - discriminate.
  - exact Hrender.
Defined.

(** C9.  A schema with UNKNOWN columns is saved like any other: with enough
    iterations allowed for the search of free paths, [save_schema_files]
    returns, having written the schema to the JSON file and its rendering to
    the plaintext file, under distinct paths; every UNKNOWN column is an
    entry [name:UNKNOWN] of the plaintext and is named in the warning; the
    warning is the last line printed when some column is UNKNOWN and nothing
    is printed after the two file notices when none is.  A column whose
    values were all null is inferred UNKNOWN. *)
Theorem unknown_columns_are_saved_and_reported (fuel : nat) (w : world)
    (schema : dict string) (path_root : string) (can_overwrite : bool) :
  S (List.length (paths w)) < fuel ->
  unique_keys schema = true ->
  (exists w' json_filepath plaintext_filepath,
      save_schema_files fuel w schema path_root can_overwrite = Ok w'
      /\ json_filepath <> plaintext_filepath
      /\ dict_get (written w') json_filepath = Some (JsonDump schema)
      /\ dict_get (written w') plaintext_filepath = Some (Text (plaintext_schema schema))
      /\ ((exists k, dict_get schema k = Some "UNKNOWN") ->
          stdout w'
          = (stdout w
             ++ [saving_json_message json_filepath;
                 saving_plaintext_message plaintext_filepath;
                 unknown_warning (unknown_columns_of schema)])%list)
      /\ ((forall k, dict_get schema k <> Some "UNKNOWN") ->
          stdout w'
          = (stdout w
             ++ [saving_json_message json_filepath;
                 saving_plaintext_message plaintext_filepath])%list))
  /\ (forall k, dict_get schema k = Some "UNKNOWN" ->
                In (k ++ ":UNKNOWN") (map schema_entry schema)
                /\ str_in (k ++ ":UNKNOWN") (plaintext_schema schema) = true
                /\ In k (unknown_columns_of schema)
                /\ str_in k (unknown_warning (unknown_columns_of schema)) = true)
  /\ (forall values, values <> [] -> forallb is_none values = true ->
                     infer_column values = Some "UNKNOWN").
Proof.
  intros Hfuel Hu. split; [|split].
  - destruct (save_schema_files_spec fuel w schema path_root can_overwrite Hfuel Hu)
      as (w' & jp & tp & Heq & Hne & Hjson & Htext & Hout).
    exists w', jp, tp. repeat (split; [assumption|]). split.
    + intros (k & Hk). apply (unknown_columns_of_In schema k Hu) in Hk.
      rewrite Hout. destruct (unknown_columns_of schema); [destruct Hk | reflexivity].
    + intros Hnone. rewrite Hout.
      destruct (unknown_columns_of schema) as [|u us] eqn:E; [reflexivity|].
      exfalso. apply (Hnone u). apply (unknown_columns_of_In schema u Hu).
      rewrite E. left. reflexivity.
  - intros k Hk.
    assert (Hentry : In (k ++ ":UNKNOWN") (map schema_entry schema))
      by (apply schema_entry_In; exact Hk).
    assert (Hin : In k (unknown_columns_of schema))
      by (apply unknown_columns_of_In; assumption).
    repeat split; try assumption.
    + apply str_in_join. exact Hentry.
    + apply unknown_warning_lists. exact Hin.
  - apply all_null_infers_unknown.
Qed.

Lemma unknown_columns_are_saved_and_reported_witness :
  exists w',
    save_schema_files 2 empty_world [("a", "UNKNOWN"); ("b", "INTEGER")]
      "out/roads" false = Ok w'
    /\ dict_get (written w') "out/roads_SCHEMA.json"
       = Some (JsonDump [("a", "UNKNOWN"); ("b", "INTEGER")])
    /\ dict_get (written w') "out/roads_SCHEMA.txt"
       = Some (Text ("a:UNKNOWN," ++ newline ++ "b:INTEGER"))
    /\ last (stdout w') "" = unknown_warning ["a"].
Proof.
  destruct (unknown_columns_are_saved_and_reported 2 empty_world
              [("a", "UNKNOWN"); ("b", "INTEGER")] "out/roads" false)
    as ((w' & jp & tp & Heq & _) & _).
  - simpl. lia.
  - reflexivity.
  - exists w'. split; [exact Heq|].
    vm_compute in Heq. inversion Heq; subst w'. repeat split; reflexivity.
Defined.

(** ** Argument validation *)

Lemma reserved_loop_found (options : list string) (convert_options : string) :
  (exists o, In o options /\ str_in o convert_options = true) ->
  exists o, In o options /\ str_in o convert_options = true
            /\ reserved_loop options convert_options = Some (reserved_option_error o).
Proof.
  induction options as [|option options IH]; intros (o & Hin & Hstr); [destruct Hin|].
  cbn [reserved_loop]. destruct (str_in option convert_options) eqn:E.
  - exists option. split; [left; reflexivity|]. auto.
  - destruct Hin as [->|Hin]; [congruence|].
    destruct IH as (o' & Hin' & Hstr' & Heq); [eauto|].
    exists o'. split; [right; exact Hin'|]. auto.
Qed.

Lemma reserved_loop_some (options : list string) (convert_options error : string) :
  reserved_loop options convert_options = Some error ->
  exists o, In o options /\ str_in o convert_options = true
            /\ error = reserved_option_error o.
Proof.
  induction options as [|option options IH]; cbn [reserved_loop]; [discriminate|].
  destruct (str_in option convert_options) eqn:E; intros H.
  - inversion H. exists option. split; [left; reflexivity|]. auto.
  - destruct (IH H) as (o & Hin & Hstr & Heq). exists o. split; [right; exact Hin|]. auto.
Qed.

Lemma reserved_loop_none (options : list string) (convert_options : string) :
  (forall o, In o options -> str_in o convert_options = false) ->
  reserved_loop options convert_options = None.
Proof.
  induction options as [|option options IH]; intros H; [reflexivity|].
  cbn [reserved_loop]. rewrite (H option) by (left; reflexivity).
  apply IH. intros o Ho. apply H. right. exact Ho.
Qed.

(** A string that holds a reserved option is not empty. *)
Lemma reserved_in_truthy (o convert_options : string) :
  In o reserved_convert_options -> str_in o convert_options = true ->
  truthy convert_options = true.
Proof.
  intros Hin Hstr. destruct convert_options; [|reflexivity].
  cbn in Hin. destruct Hin as [<-|[<-|[<-|[]]]]; discriminate.
Qed.

Lemma reserved_option_error_truthy (o : string) :
  truthy (reserved_option_error o) = true.
Proof. reflexivity. Qed.

Lemma source_errors_truthy (env : Env) (source_path : string) (dir : bool) :
  truthy_opt (get_source_errors env source_path dir) = false ->
  get_source_errors env source_path dir = None.
Proof.
  unfold get_source_errors.
  destruct (negb (truthy source_path)); [discriminate|].
  destruct (negb (path_exists (existing env) source_path)); [discriminate|].
  destruct dir.
  - destruct (isfile env source_path); [discriminate | reflexivity].
  - destruct (isdir env source_path); [discriminate|].
    destruct (negb (is_supported_geofile env source_path)); [discriminate | reflexivity].
Qed.

Lemma source_errors_not_reserved (env : Env) (source_path : string) (dir : bool)
    (o : string) :
  get_source_errors env source_path dir <> Some (reserved_option_error o).
Proof.
  unfold get_source_errors, reserved_option_error.
  destruct (negb (truthy source_path)); [discriminate|].
  destruct (negb (path_exists (existing env) source_path)); [discriminate|].
  destruct dir.
  - destruct (isfile env source_path); discriminate.
  - destruct (isdir env source_path); [discriminate|].
    destruct (negb (is_supported_geofile env source_path)); discriminate.
Qed.

Lemma output_file_errors_not_reserved (fuel : nat) (env : Env)
    (output_filepath : option string) (can_overwrite can_create_parents : bool)
    (o : string) :
  get_output_file_args_errors fuel env output_filepath can_overwrite can_create_parents
  <> Ok (Some (reserved_option_error o)).
Proof.
  unfold get_output_file_args_errors, reserved_option_error.
  destruct output_filepath as [p|]; [|discriminate].
  destruct (truthy p); [|discriminate].
  destruct (negb (is_output_file_safe (existing env) p can_overwrite)).
  - destruct (get_safe_filepath fuel (existing env) p false true);
      cbn [bind]; try discriminate.
    destruct (prompt_loop (stdin env)) as [[|]| |]; cbn [bind]; discriminate.
  - destruct (negb (is_output_directory_safe (existing env) (fst (splitext p))
                      can_create_parents)); discriminate.
Qed.

(** Once the source is accepted, validation answers for the convert
    options first. *)
Lemma get_arg_errors_reserved (fuel : nat) (env : Env) (args : Namespace) (o : string) :
  get_source_errors env (source args) (should_be_dir args) = None ->
  reserved_loop reserved_convert_options (convert_options args)
  = Some (reserved_option_error o) ->
  truthy (convert_options args) = true ->
  get_arg_errors fuel env args = Ok (Some (reserved_option_error o)).
Proof.
  intros Hsrc Hloop Htruthy. unfold get_arg_errors, should_be_dir in *.
  rewrite Hsrc. cbn [truthy_opt]. rewrite Htruthy, Hloop. reflexivity.
Qed.

Lemma get_arg_errors_no_reserved (fuel : nat) (env : Env) (args : Namespace) (o : string) :
  (truthy (convert_options args) = true ->
   reserved_loop reserved_convert_options (convert_options args) = None) ->
  get_arg_errors fuel env args <> Ok (Some (reserved_option_error o)).
Proof.
  intros Hnone. unfold get_arg_errors.
  destruct (truthy_opt (get_source_errors env (source args) _)) eqn:Hsrc.
  - intros H. inversion H as [Heq]. revert Heq. apply source_errors_not_reserved.
  - replace (if truthy (convert_options args)
             then reserved_loop reserved_convert_options (convert_options args)
             else None) with (@None string)
      by (destruct (truthy (convert_options args)); [rewrite Hnone|]; reflexivity).
    destruct (output_directory args) as [dir|].
    + destruct (truthy dir && negb (is_output_directory_safe (existing env) dir
                                       (create_parents args))).
      * unfold reserved_option_error. discriminate.
      * pose proof (output_file_errors_not_reserved fuel env (output_filepath args)
                      (force_overwrite args) (create_parents args) o) as Hout.
        destruct (get_output_file_args_errors fuel env (output_filepath args)
                    (force_overwrite args) (create_parents args)) as [[m|]| |];
          cbn [bind truthy_opt]; try discriminate.
        destruct (truthy m); [congruence | discriminate].
    + pose proof (output_file_errors_not_reserved fuel env (output_filepath args)
                    (force_overwrite args) (create_parents args) o) as Hout.
      destruct (get_output_file_args_errors fuel env (output_filepath args)
                  (force_overwrite args) (create_parents args)) as [[m|]| |];
        cbn [bind truthy_opt]; try discriminate.
      destruct (truthy m); [congruence | discriminate].
Qed.

(** ** Claims on the reserved convert options *)

(** C8.  When the convert-options string holds one of the reserved
    directives [-f], [-of], [-t_srs], validation returns a non-empty error
    message and [main] exits with status 1 on it, before any conversion; when
    it holds none of them, validation does not return the reserved-option
    error, for any option. *)
Theorem reserved_options_are_rejected (convert : Namespace -> result bool)
    (fuel : nat) (env : Env) (args : Namespace) :
  ((exists o, In o reserved_convert_options
              /\ str_in o (convert_options args) = true) ->
   exists message,
     get_arg_errors fuel env args = Ok (Some message)
     /\ message <> ""
     /\ main convert fuel env args = Ok (SysExit 1 message))
  /\ ((forall o, In o reserved_convert_options ->
                 str_in o (convert_options args) = false) ->
      forall o, get_arg_errors fuel env args <> Ok (Some (reserved_option_error o))).
Proof.
  split.
  - intros Hreserved.
    assert (Htruthy : truthy (convert_options args) = true).
    { destruct Hreserved as (o & Hin & Hstr). eapply reserved_in_truthy; eassumption. }
    destruct (reserved_loop_found _ _ Hreserved) as (o & _ & _ & Hloop).
    assert (Hmsg : exists message,
               get_arg_errors fuel env args = Ok (Some message)
               /\ truthy message = true).
    { destruct (truthy_opt (get_source_errors env (source args) (should_be_dir args)))
        eqn:Hsrc.
      - unfold get_arg_errors. unfold should_be_dir in Hsrc. rewrite Hsrc.
        destruct (get_source_errors env (source args) _) as [message|]; [|discriminate].
        exists message. split; [reflexivity | exact Hsrc].
      - exists (reserved_option_error o). split; [|reflexivity].
        apply get_arg_errors_reserved; [|exact Hloop | exact Htruthy].
        apply source_errors_truthy. exact Hsrc. }
    destruct Hmsg as (message & Heq & Hm). exists message.
    split; [exact Heq|]. split.
    + intros ->. discriminate.
    + unfold main. rewrite Heq. cbn [bind]. rewrite Hm. reflexivity.
  - intros Hnone o. apply get_arg_errors_no_reserved.
    intros _. apply reserved_loop_none. exact Hnone.
Qed.

Lemma reserved_options_are_rejected_witness :
  main (fun _ => Ok true) 1 roads_env (roads_args "-t_srs EPSG:3857")
  = Ok (SysExit 1 (reserved_option_error "-t_srs"))
  /\ get_arg_errors 1 roads_env (roads_args "-where pop>5") = Ok None.
Proof.
  split; [|reflexivity].
  destruct (reserved_options_are_rejected (fun _ => Ok true) 1 roads_env
              (roads_args "-t_srs EPSG:3857")) as (Hrejected & _).
  destruct Hrejected as (message & Heq & _ & Hmain).
  - exists "-t_srs". split; [cbn; tauto | reflexivity].
  - vm_compute in Heq. inversion Heq; subst message. exact Hmain.
Defined.

(** C10.  Validation returns the reserved-option error exactly when the
    source is accepted and the convert-options string contains [-f], [-of]
    or [-t_srs] as a substring, anywhere; the option named is the first of
    the three that is contained.  The string [-fieldmap identity] is
    rejected for [-f]. *)
Theorem reserved_detection_is_by_substring (fuel : nat) (env : Env)
    (args : Namespace) :
  ((exists o, In o reserved_convert_options
              /\ get_arg_errors fuel env args = Ok (Some (reserved_option_error o)))
   <-> (get_source_errors env (source args) (should_be_dir args) = None
        /\ exists o pre post, In o reserved_convert_options
                              /\ convert_options args = pre ++ o ++ post))
  /\ (get_source_errors env (source args) (should_be_dir args) = None ->
      (exists pre post, convert_options args = pre ++ "-f" ++ post) ->
      get_arg_errors fuel env args = Ok (Some (reserved_option_error "-f")))
  /\ str_in "-f" "-fieldmap identity" = true
  /\ get_arg_errors fuel roads_env (roads_args "-fieldmap identity")
     = Ok (Some (reserved_option_error "-f")).
Proof.
  split; [|split; [|split; reflexivity]].
  - split.
    + intros (o & Hin & Heq).
      destruct (truthy_opt (get_source_errors env (source args) (should_be_dir args)))
        eqn:Hsrc.
      { exfalso. unfold get_arg_errors, should_be_dir in *. rewrite Hsrc in Heq.
        inversion Heq as [H]. revert H. apply source_errors_not_reserved. }
      split; [apply source_errors_truthy; exact Hsrc|].
      destruct (truthy (convert_options args)) eqn:Htruthy.
      * destruct (reserved_loop reserved_convert_options (convert_options args))
          as [error|] eqn:Hloop.
        -- apply reserved_loop_some in Hloop as (o' & Hin' & Hstr & _).
           apply str_in_spec in Hstr as (pre & post & Hcat).
           exists o', pre, post. auto.
        -- exfalso. revert Heq. apply get_arg_errors_no_reserved.
           intros _. exact Hloop.
      * exfalso. revert Heq. apply get_arg_errors_no_reserved.
        rewrite Htruthy. discriminate.
    + intros (Hsrc & o & pre & post & Hin & Hcat).
      assert (Hstr : str_in o (convert_options args) = true)
        by (apply str_in_spec; eauto).
      destruct (reserved_loop_found reserved_convert_options (convert_options args))
        as (o' & Hin' & _ & Hloop); [eauto|].
      exists o'. split; [exact Hin'|].
      apply get_arg_errors_reserved; [exact Hsrc | exact Hloop|].
      apply (reserved_in_truthy o); assumption.
  - intros Hsrc Hcontains. apply str_in_spec in Hcontains.
    apply get_arg_errors_reserved; [exact Hsrc | |].
    + cbn [reserved_loop reserved_convert_options]. rewrite Hcontains. reflexivity.
    + apply (reserved_in_truthy "-f"); [left; reflexivity | exact Hcontains].
Qed.

Lemma reserved_detection_is_by_substring_witness :
  get_arg_errors 1 roads_env (roads_args "-lco SIGNIFICANT_FIGURES=8 -fieldmap identity")
  = Ok (Some (reserved_option_error "-f")).
Proof.
  destruct (reserved_detection_is_by_substring 1 roads_env
              (roads_args "-lco SIGNIFICANT_FIGURES=8 -fieldmap identity"))
    as (_ & Hfirst & _).
  apply Hfirst.
  - reflexivity.
  - exists "-lco SIGNIFICANT_FIGURES=8 ", "ieldmap identity". reflexivity.
Defined.

(** * Further properties of the code *)

(** ** Type inference *)

(** X1.  Whatever the value and the earlier type, [get_column_type] returns
    UNKNOWN, STRING, INTEGER or FLOAT, never BOOLEAN: a boolean passes the
    test for [int] first and is classified INTEGER. *)
Theorem column_type_is_never_boolean (value : json) (last_type : option string) :
  (get_column_type value last_type = "UNKNOWN"
   \/ get_column_type value last_type = "STRING"
   \/ get_column_type value last_type = "INTEGER"
   \/ get_column_type value last_type = "FLOAT")
  /\ get_column_type value last_type <> "BOOLEAN"
  /\ forall b, get_column_type (JBool b) None = "INTEGER".
Proof.
  assert (H : get_column_type value last_type = "UNKNOWN"
              \/ get_column_type value last_type = "STRING"
              \/ get_column_type value last_type = "INTEGER"
              \/ get_column_type value last_type = "FLOAT").
  { unfold get_column_type.
    destruct last_type as [last|]; [|destruct value; cbn; tauto].
    destruct (last =? "STRING") eqn:Hs;
      destruct (last =? "FLOAT") eqn:Hf;
      destruct value; cbn [is_none isinstance_str isinstance_int isinstance_float
                            isinstance_bool];
      rewrite ?Hs, ?Hf;
      repeat match goal with
             | |- context [if ?c then _ else _] => destruct c
             end; tauto. }
  split; [exact H|]. split; [|reflexivity].
  destruct H as [H|[H|[H|H]]]; rewrite H; discriminate.
Qed.

Lemma infer_column_none (values : list json) :
  infer_column values = None <-> values = [].
Proof.
  split; [|intros ->; reflexivity].
  destruct values as [|value l] using rev_ind; [reflexivity|].
  rewrite infer_column_snoc. discriminate.
Qed.

Lemma column_values_nil (n : string) (lines : list json) :
  column_values n lines = []
  <-> forall line, In line lines -> property_value n line = None.
Proof.
  unfold column_values. induction lines as [|line lines IH]; cbn [flat_map].
  - split; [intros _ line [] | reflexivity].
  - split.
    + intros H. apply app_eq_nil in H as [Hl Hr].
      intros x [Heq|Hx].
      * subst x. destruct (property_value n line); [discriminate | reflexivity].
      * apply IH; assumption.
    + intros H. rewrite (H line) by (left; reflexivity).
      apply IH. intros x Hx. apply H. right. exact Hx.
Qed.

(** X2.  On well-formed records, the type the schema holds for a property
    column is the closed form [column_type_of] of its values: STRING if one
    is a string; otherwise UNKNOWN if the last value is null (or a nested
    document), FLOAT if a float follows the last null, INTEGER if only
    integers and booleans do. *)
Theorem schema_type_closed_form (dumps : json -> string) (lines : list json)
    (columns : dict string) (n : string) :
  forallb wf_line lines = true ->
  ~ In n (configured_names columns) ->
  exists rows schema,
    geojson_to_ndjson dumps lines columns = Ok (rows, schema)
    /\ dict_get schema n = column_type_of (column_values n lines).
Proof.
  intros Hwf Hn.
  destruct (geojson_to_ndjson_spec dumps lines columns Hwf)
    as (rows & schema & Heq & Hs & _).
  exists rows, schema. split; [exact Heq|].
  rewrite Hs, (expected_type_unconfigured _ _ _ Hn).
  apply infer_column_closed_form.
Qed.

Lemma schema_type_closed_form_witness :
  exists rows schema,
    geojson_to_ndjson dumps_kind
      [feature [("pop", JNull)] (point 0 0);
       feature [("pop", JFloat 7.5%Q)] (point 0 1);
       feature [("pop", JInt 5)] (point 1 1)]
      [("geometry", "geometry")] = Ok (rows, schema)
    /\ dict_get schema "pop" = Some "FLOAT".
Proof.
  destruct (schema_type_closed_form dumps_kind
              [feature [("pop", JNull)] (point 0 0);
               feature [("pop", JFloat 7.5%Q)] (point 0 1);
               feature [("pop", JInt 5)] (point 1 1)]
              [("geometry", "geometry")] "pop")
    as (rows & schema & Heq & Htype).
  - reflexivity.
  - cbn. intros [H|[]]. discriminate.
  - exists rows, schema. split; [exact Heq | exact Htype].
Defined.

(** X3.  Two files of well-formed records that give a property column the
    same values in different orders, none of them null (or a nested
    document), give it the same type in the schema. *)
Theorem schema_type_order_independent_without_null (dumps : json -> string)
    (lines lines' : list json) (columns : dict string) (n : string) :
  forallb wf_line lines = true ->
  forallb wf_line lines' = true ->
  ~ In n (configured_names columns) ->
  Permutation (column_values n lines) (column_values n lines') ->
  existsb is_unknown (column_values n lines) = false ->
  exists rows schema rows' schema',
    geojson_to_ndjson dumps lines columns = Ok (rows, schema)
    /\ geojson_to_ndjson dumps lines' columns = Ok (rows', schema')
    /\ dict_get schema n = dict_get schema' n.
Proof.
  intros Hwf Hwf' Hn Hperm Hnull.
  destruct (geojson_to_ndjson_spec dumps lines columns Hwf)
    as (rows & schema & Heq & Hs & _).
  destruct (geojson_to_ndjson_spec dumps lines' columns Hwf')
    as (rows' & schema' & Heq' & Hs' & _).
  exists rows, schema, rows', schema'. split; [exact Heq|]. split; [exact Heq'|].
  rewrite Hs, Hs', !(expected_type_unconfigured _ _ _ Hn).
  apply infer_column_order_independent_without_unknown; assumption.
Qed.

Lemma schema_type_order_independent_without_null_witness :
  exists rows schema rows' schema',
    geojson_to_ndjson dumps_kind
      [feature [("pop", JInt 1)] (point 0 0); feature [("pop", JFloat 2.5%Q)] (point 0 1)]
      [("geometry", "geometry")] = Ok (rows, schema)
    /\ geojson_to_ndjson dumps_kind
         [feature [("pop", JFloat 2.5%Q)] (point 0 1); feature [("pop", JInt 1)] (point 0 0)]
         [("geometry", "geometry")] = Ok (rows', schema')
    /\ dict_get schema "pop" = dict_get schema' "pop".
Proof.
  apply (schema_type_order_independent_without_null dumps_kind
           [feature [("pop", JInt 1)] (point 0 0);
            feature [("pop", JFloat 2.5%Q)] (point 0 1)]
           [feature [("pop", JFloat 2.5%Q)] (point 0 1);
            feature [("pop", JInt 1)] (point 0 0)]
           [("geometry", "geometry")] "pop").
  - reflexivity.
  - reflexivity.
  - cbn. intros [H|[]]. discriminate.
  - apply perm_swap.
  - reflexivity.
Defined.

(** X7.  On well-formed records, a name that is not a configured geometry
    column has a schema entry exactly when some record has a property of
    that name. *)
Theorem schema_columns_are_the_properties (dumps : json -> string)
    (lines : list json) (columns : dict string) (n : string) :
  forallb wf_line lines = true ->
  ~ In n (configured_names columns) ->
  exists rows schema,
    geojson_to_ndjson dumps lines columns = Ok (rows, schema)
    /\ (dict_get schema n = None
        <-> forall line, In line lines -> property_value n line = None).
Proof.
  intros Hwf Hn.
  destruct (geojson_to_ndjson_spec dumps lines columns Hwf)
    as (rows & schema & Heq & Hs & _).
  exists rows, schema. split; [exact Heq|].
  rewrite Hs, (expected_type_unconfigured _ _ _ Hn), infer_column_none.
  apply column_values_nil.
Qed.

Lemma schema_columns_are_the_properties_witness :
  exists rows schema,
    geojson_to_ndjson dumps_kind
      [feature [("pop", JInt 5)] (point 0 0); feature [] (point 0 1)]
      [("geometry", "geometry")] = Ok (rows, schema)
    /\ dict_get schema "name" = None.
Proof.
  destruct (schema_columns_are_the_properties dumps_kind
              [feature [("pop", JInt 5)] (point 0 0); feature [] (point 0 1)]
              [("geometry", "geometry")] "name")
    as (rows & schema & Heq & Hiff).
  - reflexivity.
  - cbn. intros [H|[]]. discriminate.
  - exists rows, schema. split; [exact Heq|].
    apply Hiff. intros line [<-|[<-|[]]]; reflexivity.
Defined.

(** ** Records the conversion cannot read *)

Lemma lines_loop_app (dumps : json -> string) (columns : dict string)
    (before after : list json) :
  forall (rows : list (dict json)) (schema : dict string),
    lines_loop dumps columns (before ++ after) rows schema
    = (rs <- lines_loop dumps columns before rows schema ;;
       lines_loop dumps columns after (fst rs) (snd rs)).
Proof.
  induction before as [|line before IH]; intros rows schema.
  - reflexivity.
  - cbn [app lines_loop].
    destruct (convert_line dumps columns line schema) as [[row schema1]| |];
      cbn [bind]; [apply IH | reflexivity | reflexivity].
Qed.

(** A record that makes [convert_line] raise ends the conversion with that
    exception, whatever follows it. *)
Lemma geojson_to_ndjson_aborts (dumps : json -> string) (columns : dict string)
    (before after : list json) (line : json) (e : exn) :
  forallb wf_line before = true ->
  (forall schema, convert_line dumps columns line schema = Raise e) ->
  geojson_to_ndjson dumps (before ++ line :: after) columns = Raise e.
Proof.
  intros Hwf Hraise. unfold geojson_to_ndjson. rewrite lines_loop_app.
  destruct (lines_loop_spec dumps columns before [] [] Hwf)
    as (rows & schema & Hloop & _).
  rewrite Hloop. cbn [bind fst snd lines_loop]. rewrite Hraise. reflexivity.
Qed.



(** X5.  A record whose [properties] member is null ends the conversion
    with a [TypeError], under every column configuration. *)
Theorem null_properties_raise (dumps : json -> string) (columns : dict string)
    (before after : list json) (members : dict json) :
  forallb wf_line before = true ->
  dict_get members "properties" = Some JNull ->
  geojson_to_ndjson dumps (before ++ JObj members :: after) columns = Raise TypeError.
Proof.
  intros Hwf Hnull. apply geojson_to_ndjson_aborts; [exact Hwf|].
  intros schema. unfold convert_line. cbn [get_properties]. rewrite Hnull. reflexivity.
Qed.

Lemma null_properties_raise_witness :
  geojson_to_ndjson dumps_kind
    [JObj [("type", JStr "Feature"); ("properties", JNull); ("geometry", point 0 0)]] []
  = Raise TypeError.
Proof.
  apply (null_properties_raise dumps_kind [] [] []
           [("type", JStr "Feature"); ("properties", JNull); ("geometry", point 0 0)]);
    reflexivity.
Defined.

(** ** Keys of the configuration *)

Lemma set_geo_field_ext (dumps : json -> string) (columns columns' : dict string)
    (k : string) (payload : result json) (row : dict json) :
  dict_get columns k = dict_get columns' k ->
  set_geo_field dumps columns k payload row = set_geo_field dumps columns' k payload row.
Proof. intros H. unfold set_geo_field. rewrite H. reflexivity. Qed.

(** X6.  The conversion reads the configuration only at the keys
    [geometry], [geojson] and [geojson_geometry]: two configurations that
    agree on them give the same rows and the same schema, so any other key of
    the mapping is ignored. *)
Theorem only_three_keys_are_read (dumps : json -> string) (lines : list json)
    (columns columns' : dict string) :
  (forall k, In k geo_keys -> dict_get columns k = dict_get columns' k) ->
  geojson_to_ndjson dumps lines columns = geojson_to_ndjson dumps lines columns'.
Proof.
  intros Hsame.
  assert (H1 : dict_get columns "geometry" = dict_get columns' "geometry")
    by (apply Hsame; cbn; tauto).
  assert (H2 : dict_get columns "geojson" = dict_get columns' "geojson")
    by (apply Hsame; cbn; tauto).
  assert (H3 : dict_get columns "geojson_geometry" = dict_get columns' "geojson_geometry")
    by (apply Hsame; cbn; tauto).
  assert (Hline : forall line schema,
             convert_line dumps columns line schema
             = convert_line dumps columns' line schema).
  { intros line schema. unfold convert_line.
    destruct (get_properties line) as [properties| |]; cbn [bind]; try reflexivity.
    destruct (properties_loop properties (dict_keys properties) [] schema)
      as [[row schema']| |]; cbn [bind]; try reflexivity.
    rewrite (set_geo_field_ext dumps columns columns' "geometry" _ _ H1).
    destruct (set_geo_field dumps columns' "geometry" _ row); cbn [bind]; try reflexivity.
    rewrite (set_geo_field_ext dumps columns columns' "geojson" _ _ H2).
    destruct (set_geo_field dumps columns' "geojson" _ a); cbn [bind]; try reflexivity.
    rewrite (set_geo_field_ext dumps columns columns' "geojson_geometry" _ _ H3).
    reflexivity. }
  assert (Hloop : forall rows schema,
             lines_loop dumps columns lines rows schema
             = lines_loop dumps columns' lines rows schema).
  { induction lines as [|line lines IH]; intros rows schema; [reflexivity|].
    cbn [lines_loop]. rewrite Hline.
    destruct (convert_line dumps columns' line schema) as [[row schema']| |];
      cbn [bind]; [apply IH | reflexivity | reflexivity]. }
  unfold geojson_to_ndjson. rewrite Hloop.
  destruct (lines_loop dumps columns' lines [] []) as [[rows schema]| |];
    cbn [bind]; try reflexivity.
  unfold add_geo_types, set_geo_type. rewrite H1, H2, H3. reflexivity.
Qed.

Lemma only_three_keys_are_read_witness :
  geojson_to_ndjson dumps_kind [feature [("pop", JInt 5)] (point 0 0)]
    [("geometry", "geom"); ("centroid", "c")]
  = geojson_to_ndjson dumps_kind [feature [("pop", JInt 5)] (point 0 0)]
      [("geometry", "geom")].
Proof.
  apply only_three_keys_are_read.
  intros k [<-|[<-|[<-|[]]]]; reflexivity.
Defined.

(** ** More on safe paths *)

Lemma safe_filepath_loop_sound (fs : list string) (path_root extension : string)
    (can_overwrite : bool) (fuel : nat) :
  forall (i : nat) (p q : string),
    safe_filepath_loop fuel fs path_root extension can_overwrite i p = Ok q ->
    is_output_file_safe fs q can_overwrite = true.
Proof.
  induction fuel as [|fuel IH]; intros i p q; cbn [safe_filepath_loop];
    destruct (is_output_file_safe fs p can_overwrite) eqn:E; intros H;
    try discriminate; try (inversion H; subst; exact E).
  eapply IH. exact H.
Qed.

(** Whatever [get_safe_filepath] returns is safe to write. *)
Lemma get_safe_filepath_sound (fuel : nat) (fs : list string) (p q : string)
    (can_overwrite is_candidate : bool) :
  get_safe_filepath fuel fs p can_overwrite is_candidate = Ok q ->
  is_output_file_safe fs q can_overwrite = true.
Proof.
  unfold get_safe_filepath. destruct (splitext p) as [r e].
  destruct (negb is_candidate); apply safe_filepath_loop_sound.
Qed.

Lemma safe_filepath_numbered (fs : list string) (p : string) (fuel : nat) :
  List.length fs < fuel ->
  path_exists fs p = true ->
  exists n,
    1 <= n
    /\ get_safe_filepath fuel fs p false true
       = Ok (numbered_path (fst (splitext p)) (snd (splitext p)) n)
    /\ path_exists fs (numbered_path (fst (splitext p)) (snd (splitext p)) n) = false
    /\ forall m, 1 <= m < n ->
                 path_exists fs (numbered_path (fst (splitext p)) (snd (splitext p)) m)
                 = true.
Proof.
  intros Hfuel Hexists. unfold get_safe_filepath.
  destruct (splitext p) as [r e]. cbn [fst snd negb].
  destruct (first_free_exists fs r e) as (n & Hn & Hfree & Hbelow).
  exists n. split; [lia|]. split; [|split; [exact Hfree | exact Hbelow]].
  destruct n as [|d]; [lia|].
  apply (safe_filepath_loop_reaches fs r e d fuel 0 p);
    [lia | exact Hexists | intros m Hm; apply Hbelow; lia | exact Hfree].
Qed.

(** X8.  When the target is not a candidate, the result is always a numbered
    path, also when the target itself is free: the numbered path of the least
    free number from 1, or [root_01.ext] at once when overwriting is
    allowed. *)
Theorem not_candidate_is_always_numbered (fs : list string) (p : string) (fuel : nat) :
  List.length fs < fuel ->
  let path_root := fst (splitext p) in
  let extension := snd (splitext p) in
  (exists n,
      1 <= n
      /\ get_safe_filepath fuel fs p false false = Ok (numbered_path path_root extension n)
      /\ path_exists fs (numbered_path path_root extension n) = false
      /\ forall m, 1 <= m < n ->
                   path_exists fs (numbered_path path_root extension m) = true)
  /\ get_safe_filepath fuel fs p true false = Ok (numbered_path path_root extension 1).
Proof.
  intros Hfuel. unfold get_safe_filepath.
  destruct (splitext p) as [r e]. cbn [fst snd negb]. split.
  - change (r ++ "_01" ++ e) with (numbered_path r e 1).
    destruct (first_free_exists fs r e) as (n & Hn & Hfree & Hbelow).
    exists n. split; [lia|]. split; [|split; [exact Hfree | exact Hbelow]].
    destruct n as [|[|d]]; [lia| |].
    + apply safe_filepath_loop_stops. unfold is_output_file_safe.
      rewrite Hfree. reflexivity.
    + apply (safe_filepath_loop_reaches fs r e d fuel 1 (numbered_path r e 1)).
      * lia.
      * apply Hbelow. lia.
      * intros m Hm. apply Hbelow. lia.
      * exact Hfree.
  - apply safe_filepath_loop_stops. reflexivity.
Qed.

Lemma not_candidate_is_always_numbered_witness :
  get_safe_filepath 2 [] "out/a.json" false false = Ok "out/a_01.json".
Proof.
  destruct (not_candidate_is_always_numbered [] "out/a.json" 2)
    as ((n & Hn & Heq & Hfree & Hbelow) & _); [simpl; lia|].
  destruct n as [|[|n]].
  - inversion Hn.
  - exact Heq.
  - discriminate (Hbelow 1 (conj (le_n 1) (le_n_S 1 (S n) (le_n_S 0 n (Nat.le_0_l n))))).
Defined.

(** X9.  Applied again to the same colliding target once the path it
    returned exists, [get_safe_filepath] returns a numbered path with a
    strictly larger number. *)
Theorem next_safe_filepath_is_larger (fs : list string) (p : string) (fuel n : nat) :
  S (List.length fs) < fuel ->
  path_exists fs p = true ->
  let path_root := fst (splitext p) in
  let extension := snd (splitext p) in
  get_safe_filepath fuel fs p false true = Ok (numbered_path path_root extension n) ->
  exists m,
    n < m
    /\ get_safe_filepath fuel (numbered_path path_root extension n :: fs) p false true
       = Ok (numbered_path path_root extension m).
Proof.
  intros Hfuel Hexists path_root extension Hfirst.
  destruct (safe_filepath_numbered fs p fuel) as (n' & Hn' & Heq & Hfree & Hbelow);
    [lia | exact Hexists |].
  fold path_root extension in Heq, Hfree, Hbelow.
  assert (n' = n).
  { rewrite Heq in Hfirst. inversion Hfirst as [H].
    apply numbered_path_injective in H. exact H. }
  subst n'.
  set (fs' := numbered_path path_root extension n :: fs).
  assert (Hsub : forall q, path_exists fs q = true -> path_exists fs' q = true).
  { intros q Hq. apply path_exists_In. right. apply path_exists_In. exact Hq. }
  destruct (safe_filepath_numbered fs' p fuel) as (m & Hm & Heq' & Hfree' & Hbelow');
    [simpl; lia | apply Hsub; exact Hexists |].
  fold path_root extension in Heq', Hfree', Hbelow'.
  exists m. split; [|exact Heq'].
  destruct (Nat.lt_trichotomy m n) as [Hlt|[->|Hgt]]; [| |exact Hgt]; exfalso.
  - rewrite (Hsub _ (Hbelow m (conj Hm Hlt))) in Hfree'. discriminate.
  - assert (Hin : path_exists fs' (numbered_path path_root extension n) = true)
      by (apply path_exists_In; left; reflexivity).
    rewrite Hin in Hfree'. discriminate.
Qed.

Lemma next_safe_filepath_is_larger_witness :
  exists m,
    1 < m
    /\ get_safe_filepath 3 ["out/a_01.json"; "out/a.json"] "out/a.json" false true
       = Ok (numbered_path "out/a" ".json" m).
Proof.
  apply (next_safe_filepath_is_larger ["out/a.json"] "out/a.json" 3 1).
  - simpl. lia.
  - reflexivity.
  - reflexivity.
Defined.

(** X10.  [get_safe_filepath] is idempotent: applied to a path it returned,
    over the same existing paths, it returns that path. *)
Theorem get_safe_filepath_idempotent (fuel fuel' : nat) (fs : list string)
    (p q : string) (can_overwrite is_candidate : bool) :
  get_safe_filepath fuel fs p can_overwrite is_candidate = Ok q ->
  get_safe_filepath fuel' fs q can_overwrite true = Ok q.
Proof.
  intros H. apply get_safe_filepath_sound in H.
  unfold get_safe_filepath. destruct (splitext q) as [r e]. cbn [negb].
  apply safe_filepath_loop_stops. exact H.
Qed.

Lemma get_safe_filepath_idempotent_witness :
  get_safe_filepath 0 ["out/a.json"] "out/a_01.json" false true = Ok "out/a_01.json".
Proof.
  apply (get_safe_filepath_idempotent 2 0 ["out/a.json"] "out/a.json" "out/a_01.json"
           false true).
  reflexivity.
Defined.

(** ** Output paths *)

(** X17.  Without overwrite, [get_output_filepath] returns a path that does
    not exist: the default path, made of the output directory (or the
    directory of the source), the file name of the source without its
    extension and the new extension, or a numbered variant of it. *)
Theorem get_output_filepath_is_free (fuel : nat) (fs : list string)
    (source_filepath extension : string) (output_directory : option string) :
  List.length fs < fuel ->
  let default :=
    path_join (str_or output_directory (dirname source_filepath))
      (fst (splitext (basename source_filepath)) ++ extension) in
  exists q,
    get_output_filepath fuel fs source_filepath extension false output_directory = Ok q
    /\ path_exists fs q = false
    /\ (q = default
        \/ exists n, 1 <= n
                     /\ q = numbered_path (fst (splitext default))
                            (snd (splitext default)) n).
Proof.
  intros Hfuel default.
  assert (Hunfold : get_output_filepath fuel fs source_filepath extension false
                      output_directory
                    = get_safe_filepath fuel fs default false true).
  { unfold get_output_filepath, get_path_parts.
    destruct (splitext source_filepath). reflexivity. }
  rewrite Hunfold.
  destruct (path_exists fs default) eqn:Hexists.
  - destruct (safe_filepath_numbered fs default fuel Hfuel Hexists)
      as (n & Hn & Heq & Hfree & _).
    eexists. split; [exact Heq|]. split; [exact Hfree|]. right. eauto.
  - exists default. split; [|split; [exact Hexists | left; reflexivity]].
    unfold get_safe_filepath. destruct (splitext default). cbn [negb].
    apply safe_filepath_loop_stops. unfold is_output_file_safe.
    rewrite Hexists. reflexivity.
Qed.

Lemma get_output_filepath_is_free_witness :
  get_output_filepath 2 ["out/roads.json"] "data/roads.shp" ".json" false (Some "out")
  = Ok "out/roads_01.json".
Proof.
  destruct (get_output_filepath_is_free 2 ["out/roads.json"] "data/roads.shp" ".json"
              (Some "out")) as (q & Heq & _); [simpl; lia|].
  rewrite Heq. vm_compute in Heq. inversion Heq. reflexivity.
Defined.

(** ** The column configuration *)

Lemma columns_loop_get (items : list json) :
  forall (columns : dict json) (k : string),
    dict_get (columns_loop items columns) k
    = if existsb (String.eqb k) default_column_names && mentions items k
      then Some (JStr k) else dict_get columns k.
Proof.
  induction items as [|item items IH]; intros columns k.
  - cbn. rewrite andb_false_r. reflexivity.
  - cbn [columns_loop mentions existsb].
    fold (mentions items k).
    destruct item as [| | | |name| |]; cbn [orb]; try apply IH.
    destruct (existsb (String.eqb name) default_column_names) eqn:Hname;
      rewrite IH; destruct (String.eqb_spec name k) as [->|Hne]; cbn [orb].
    + rewrite Hname. cbn [andb].
      rewrite dict_get_set_same. destruct (mentions items k); reflexivity.
    + rewrite dict_get_set_other by exact Hne. reflexivity.
    + rewrite Hname. reflexivity.
    + reflexivity.
Qed.

Lemma columns_loop_unique (items : list json) :
  forall columns, unique_keys columns = true ->
                  unique_keys (columns_loop items columns) = true.
Proof.
  induction items as [|item items IH]; intros columns Hu; [exact Hu|].
  cbn [columns_loop]. destruct item; try (apply IH; exact Hu).
  destruct (existsb (String.eqb s) default_column_names); apply IH;
    [apply dict_set_keys_unique|]; exact Hu.
Qed.

Lemma dict_all_none_nil {V : Type} (d : dict V) :
  (forall k, dict_get d k = None) -> d = [].
Proof.
  destruct d as [|[k v] d]; [reflexivity|]. intros H.
  specialize (H k). cbn in H. rewrite String.eqb_refl in H. discriminate.
Qed.

(** X11.  For a JSON array, [get_columns] keeps the default names the array
    holds, each under its own name and once, and drops everything else; it
    answers [False] when the array holds none of them, and no columns when
    the array is empty. *)
Theorem get_columns_of_array (loads : string -> option json) (s : string)
    (items : list json) :
  s <> "" ->
  loads s = Some (JArr items) ->
  (items = [] -> get_columns loads s = Ok (Some []))
  /\ (items <> [] ->
      (forall k, In k default_column_names -> mentions items k = false) ->
      get_columns loads s = Ok None)
  /\ (forall k0, In k0 default_column_names -> mentions items k0 = true ->
        exists columns,
          get_columns loads s = Ok (Some columns)
          /\ unique_keys columns = true
          /\ forall k, dict_get columns k
                       = if existsb (String.eqb k) default_column_names
                            && mentions items k
                         then Some (JStr k) else None).
Proof.
  intros Hs Hloads. apply String.eqb_neq in Hs.
  unfold get_columns. rewrite Hs, Hloads.
  split; [intros ->; reflexivity|]. split.
  - intros Hne Hnone. destruct items as [|item items]; [congruence|].
    cbn [json_truthy negb].
    replace (columns_loop (item :: items) []) with (@nil (string * json)); [reflexivity|].
    symmetry. apply dict_all_none_nil. intros k. rewrite columns_loop_get.
    destruct (existsb (String.eqb k) default_column_names) eqn:Hk; [|reflexivity].
    apply existsb_exists in Hk as (x & Hx & Hxk). apply String.eqb_eq in Hxk. subst x.
    rewrite (Hnone k Hx). reflexivity.
  - intros k0 Hk0 Hm. destruct items as [|item items]; [discriminate|].
    cbn [json_truthy negb].
    assert (Hget : dict_get (columns_loop (item :: items) []) k0 = Some (JStr k0)).
    { rewrite columns_loop_get, Hm.
      replace (existsb (String.eqb k0) default_column_names) with true; [reflexivity|].
      symmetry. apply existsb_exists. exists k0. split; [exact Hk0 | apply String.eqb_refl]. }
    destruct (columns_loop (item :: items) []) as [|kv columns] eqn:Hloop; [discriminate|].
    exists (kv :: columns). split; [reflexivity|]. split.
    + rewrite <- Hloop. apply columns_loop_unique. reflexivity.
    + intros k. rewrite <- Hloop. apply columns_loop_get.
Qed.

Lemma get_columns_of_array_witness :
  get_columns (loads_as (JArr [JStr "geojson"; JStr "area"; JStr "geometry"; JStr "geojson"]))
    "[...]"
  = Ok (Some [("geojson", JStr "geojson"); ("geometry", JStr "geometry")]).
Proof.
  destruct (get_columns_of_array
              (loads_as (JArr [JStr "geojson"; JStr "area"; JStr "geometry"; JStr "geojson"]))
              "[...]" [JStr "geojson"; JStr "area"; JStr "geometry"; JStr "geojson"])
    as (_ & _ & Hsome).
  - discriminate.
  - reflexivity.
  - destruct (Hsome "geojson") as (columns & Heq & _).
    + cbn. tauto.
    + reflexivity.
    + rewrite Heq. vm_compute in Heq. inversion Heq. reflexivity.
Defined.

Lemma single_character_is_no_column (c : ascii) :
  existsb (String.eqb (String c "")) default_column_names = false.
Proof.
  cbn. destruct (Ascii.eqb c "g"); reflexivity.
Qed.

Lemma columns_loop_characters (text : string) :
  columns_loop (characters text) [] = [].
Proof.
  induction text as [|c text IH]; [reflexivity|].
  cbn [characters columns_loop]. rewrite single_character_is_no_column. exact IH.
Qed.

(** X13.  [get_columns] at its edges: the empty argument gives no columns
    without being parsed; text that does not parse gives [False]; a document
    that is falsy (null, false, zero, the empty string, array or object)
    gives no columns; a non-empty JSON string gives [False], each of its
    characters being an unknown column; a true boolean or a non-zero number
    raises a [TypeError]; a non-empty object is returned as it is. *)
Theorem get_columns_edges (loads : string -> option json) :
  get_columns loads "" = Ok (Some [])
  /\ (forall s, s <> "" -> loads s = None -> get_columns loads s = Ok None)
  /\ (forall s v, s <> "" -> loads s = Some v -> json_truthy v = false ->
                  get_columns loads s = Ok (Some []))
  /\ (forall s text, s <> "" -> loads s = Some (JStr text) -> text <> "" ->
                     get_columns loads s = Ok None)
  /\ (forall s v, s <> "" -> loads s = Some v -> json_truthy v = true ->
                  (isinstance_int v || isinstance_float v) = true ->
                  get_columns loads s = Raise TypeError)
  /\ (forall s members, s <> "" -> loads s = Some (JObj members) -> members <> [] ->
                        get_columns loads s = Ok (Some members)).
Proof.
  split; [reflexivity|].
  repeat split; intros s; intros; unfold get_columns;
    match goal with H : s <> "" |- _ => apply String.eqb_neq in H; rewrite H end;
    match goal with H : loads s = _ |- _ => rewrite H end.
  - reflexivity.
  - match goal with H : json_truthy _ = false |- _ => rewrite H end. reflexivity.
  - cbn [json_truthy]. unfold truthy.
    match goal with H : text <> "" |- _ => apply String.eqb_neq in H; rewrite H end.
    cbn [negb]. rewrite columns_loop_characters. reflexivity.
  - match goal with H : json_truthy _ = true |- _ => rewrite H end. cbn [negb].
    destruct v; try discriminate; reflexivity.
  - destruct members; [congruence | reflexivity].
Qed.

Lemma get_columns_edges_witness :
  get_columns (loads_as (JStr "geometry")) "text" = Ok None
  /\ get_columns (loads_as (JInt 3)) "3" = Raise TypeError.
Proof.
  destruct (get_columns_edges (loads_as (JStr "geometry"))) as (_ & _ & _ & Htext & _).
  destruct (get_columns_edges (loads_as (JInt 3))) as (_ & _ & _ & _ & Hint & _).
  split.
  - apply (Htext "text" "geometry"); [discriminate | reflexivity | discriminate].
  - apply (Hint "3" (JInt 3)); [discriminate | reflexivity | reflexivity | reflexivity].
Defined.

Lemma dict_set_In {V : Type} (d : dict V) (k : string) (v : V) (k' : string) (v' : V) :
  In (k', v') (dict_set d k v) -> (k' = k /\ v' = v) \/ In (k', v') d.
Proof.
  induction d as [|[k0 v0] d IH]; cbn [dict_set].
  - intros [H|[]]. inversion H. auto.
  - destruct (String.eqb_spec k0 k) as [->|Hne]; intros [H|H].
    + inversion H. auto.
    + right. right. exact H.
    + right. left. exact H.
    + destruct (IH H) as [?|?]; [left; assumption | right; right; assumption].
Qed.

Lemma columns_loop_entries (items : list json) :
  forall columns,
    (forall k v, In (k, v) columns -> v = JStr k) ->
    forall k v, In (k, v) (columns_loop items columns) -> v = JStr k.
Proof.
  induction items as [|item items IH]; intros columns Hc; [exact Hc|].
  cbn [columns_loop]. destruct item; try (apply IH; exact Hc).
  destruct (existsb (String.eqb s) default_column_names); apply IH; [|exact Hc].
  intros k v Hin. apply dict_set_In in Hin as [[-> ->]|Hin]; [reflexivity | auto].
Qed.

Lemma column_names_get (columns : dict json) (k : string) :
  (forall k' v, In (k', v) columns -> v = JStr k') ->
  dict_get (column_names columns) k
  = match dict_get columns k with Some _ => Some k | None => None end.
Proof.
  induction columns as [|[k0 v0] columns IH]; intros Hc; [reflexivity|].
  cbn [column_names flat_map snd fst].
  rewrite (Hc k0 v0) by (left; reflexivity). cbn [app dict_get].
  destruct (String.eqb_spec k0 k) as [->|Hne]; [reflexivity|].
  apply IH. intros k' v Hin. apply Hc. right. exact Hin.
Qed.

(** X12.  A configuration given as a JSON array and accepted by
    [get_columns] gives each default name it holds a column of that name with
    its fixed type in the schema (GEOGRAPHY for [geometry], STRING for the two
    others), on every sequence of well-formed records; a default name it does
    not hold is typed from the properties like any other column. *)
Theorem array_configuration_gives_fixed_types (dumps : json -> string)
    (loads : string -> option json) (s : string) (items : list json)
    (columns : dict json) (lines : list json) :
  s <> "" ->
  loads s = Some (JArr items) ->
  get_columns loads s = Ok (Some columns) ->
  forallb wf_line lines = true ->
  exists rows schema,
    geojson_to_ndjson dumps lines (column_names columns) = Ok (rows, schema)
    /\ forall k, In k geo_keys ->
                 dict_get schema k
                 = if mentions items k then Some (geo_type k)
                   else infer_column (column_values k lines).
Proof.
  intros Hs Hloads Hget Hwf.
  assert (Hcols : columns = columns_loop items []).
  { apply String.eqb_neq in Hs. unfold get_columns in Hget. rewrite Hs, Hloads in Hget.
    destruct items as [|item items]; [inversion Hget; reflexivity|].
    cbn [json_truthy negb] in Hget.
    destruct (columns_loop (item :: items) []); inversion Hget. reflexivity. }
  assert (Hnames : forall k, dict_get (column_names columns) k
                             = if existsb (String.eqb k) default_column_names
                                  && mentions items k
                               then Some k else None).
  { intros k. rewrite column_names_get.
    - rewrite Hcols, columns_loop_get.
      destruct (existsb (String.eqb k) default_column_names && mentions items k);
        reflexivity.
    - rewrite Hcols. apply columns_loop_entries. intros ? ? []. }
  destruct (geojson_to_ndjson_spec dumps lines (column_names columns) Hwf)
    as (rows & schema & Heq & Hschema & _).
  exists rows, schema. split; [exact Heq|].
  intros k Hk. rewrite Hschema. unfold expected_type, column_named.
  rewrite !Hnames. cbn [default_column_names existsb String.eqb Ascii.eqb Bool.eqb orb andb].
  cbn [geo_keys In] in Hk.
  destruct Hk as [<-|[<-|[<-|[]]]];
    destruct (mentions items "geometry"), (mentions items "geojson"),
      (mentions items "geojson_geometry"); reflexivity.
Qed.

Lemma array_configuration_gives_fixed_types_witness :
  exists rows schema,
    geojson_to_ndjson dumps_kind [feature [("geojson", JInt 5)] (point 0 0)]
      (column_names [("geometry", JStr "geometry")]) = Ok (rows, schema)
    /\ dict_get schema "geometry" = Some "GEOGRAPHY"
    /\ dict_get schema "geojson" = Some "INTEGER".
Proof.
  destruct (array_configuration_gives_fixed_types dumps_kind
              (loads_as (JArr [JStr "geometry"])) "[...]" [JStr "geometry"]
              [("geometry", JStr "geometry")]
              [feature [("geojson", JInt 5)] (point 0 0)])
    as (rows & schema & Heq & Htypes).
  - discriminate.
  - reflexivity.
  - reflexivity.
  - reflexivity.
  - exists rows, schema. split; [exact Heq|]. split.
    + apply (Htypes "geometry"). cbn. tauto.
    + apply (Htypes "geojson"). cbn. tauto.
Defined.

(** ** What validation accepts *)

Lemma source_accepted (env : Env) (source_path : string) (dir : bool) :
  get_source_errors env source_path dir = None ->
  source_path <> ""
  /\ path_exists (existing env) source_path = true
  /\ (dir = true -> isfile env source_path = false)
  /\ (dir = false -> isdir env source_path = false
                    /\ gdal_can_open env source_path = true).
Proof.
  unfold get_source_errors, is_supported_geofile, truthy.
  destruct (String.eqb_spec source_path ""); cbn [negb]; [discriminate|].
  destruct (path_exists (existing env) source_path); cbn [negb]; [|discriminate].
  destruct dir.
  - destruct (isfile env source_path); [discriminate|]. intros _.
    repeat split; auto; discriminate.
  - destruct (isdir env source_path); [discriminate|].
    destruct (gdal_can_open env source_path); cbn [negb]; [|discriminate].
    intros _. repeat split; auto; discriminate.
Qed.

Lemma reserved_loop_none_inv (options : list string) (convert_options : string) :
  reserved_loop options convert_options = None ->
  forall o, In o options -> str_in o convert_options = false.
Proof.
  induction options as [|option options IH]; cbn [reserved_loop]; intros H o Hin;
    [destruct Hin|].
  destruct (str_in option convert_options) eqn:E; [discriminate|].
  destruct Hin as [<-|Hin]; [exact E | apply IH; assumption].
Qed.

Lemma output_file_errors_truthy (fuel : nat) (env : Env)
    (output_filepath : option string) (can_overwrite can_create_parents : bool)
    (m : string) :
  get_output_file_args_errors fuel env output_filepath can_overwrite can_create_parents
  = Ok (Some m) ->
  truthy m = true.
Proof.
  unfold get_output_file_args_errors.
  destruct output_filepath as [p|]; [|discriminate].
  destruct (truthy p); [|discriminate].
  destruct (negb (is_output_file_safe (existing env) p can_overwrite)).
  - destruct (get_safe_filepath fuel (existing env) p false true);
      cbn [bind]; try discriminate.
    destruct (prompt_loop (stdin env)) as [[|]| |]; cbn [bind]; try discriminate.
    intros H. inversion H. reflexivity.
  - destruct (negb (is_output_directory_safe (existing env) (fst (splitext p))
                      can_create_parents)); [|discriminate].
    intros H. inversion H. reflexivity.
Qed.

(** X14.  When validation reports nothing, the source is a non-empty path
    that exists; it is not a file if an extension was given, and otherwise
    not a directory and a file that gdal opens; the convert options hold no
    reserved sequence; a given output directory exists unless parents may be
    created; and a given output file that is safe to write has its path
    without the extension existing, unless parents may be created. *)
Theorem accepted_arguments (fuel : nat) (env : Env) (args : Namespace) :
  get_arg_errors fuel env args = Ok None ->
  source args <> ""
  /\ path_exists (existing env) (source args) = true
  /\ (extension args <> None -> isfile env (source args) = false)
  /\ (extension args = None ->
      isdir env (source args) = false /\ gdal_can_open env (source args) = true)
  /\ (forall o, In o reserved_convert_options ->
                str_in o (convert_options args) = false)
  /\ (forall dir, output_directory args = Some dir -> dir <> "" ->
                  create_parents args = true \/ path_exists (existing env) dir = true)
  /\ (forall p, output_filepath args = Some p -> p <> "" ->
                is_output_file_safe (existing env) p (force_overwrite args) = true ->
                create_parents args = true
                \/ path_exists (existing env) (fst (splitext p)) = true).
Proof.
  unfold get_arg_errors. intros H.
  destruct (truthy_opt (get_source_errors env (source args) _)) eqn:Hsrc.
  { inversion H as [Hnone]. rewrite Hnone in Hsrc. discriminate. }
  apply source_errors_truthy in Hsrc.
  destruct (source_accepted _ _ _ Hsrc) as (Hne & Hex & Hdir & Hfile).
  split; [exact Hne|]. split; [exact Hex|]. split; [|split].
  { intros Hext. apply Hdir. destruct (extension args); [reflexivity | congruence]. }
  { intros Hext. apply Hfile. rewrite Hext. reflexivity. }
  assert (Hreserved : forall o, In o reserved_convert_options ->
                                str_in o (convert_options args) = false).
  { destruct (truthy (convert_options args)) eqn:Ht.
    - destruct (reserved_loop reserved_convert_options (convert_options args)) eqn:Hl;
        [discriminate|].
      apply reserved_loop_none_inv. exact Hl.
    - intros o Ho. destruct (str_in o (convert_options args)) eqn:Hs; [|reflexivity].
      rewrite (reserved_in_truthy o _ Ho Hs) in Ht. discriminate. }
  split; [exact Hreserved|].
  replace (if truthy (convert_options args)
           then reserved_loop reserved_convert_options (convert_options args)
           else None) with (@None string) in H
    by (destruct (truthy (convert_options args));
        [rewrite (reserved_loop_none _ _ Hreserved)|]; reflexivity).
  split.
  - intros dir Hdir' Hd. rewrite Hdir' in H. unfold truthy in H.
    apply String.eqb_neq in Hd. rewrite Hd in H. cbn [negb andb] in H.
    unfold is_output_directory_safe in H.
    destruct (create_parents args); [left; reflexivity|].
    destruct (path_exists (existing env) dir); [right; reflexivity | discriminate].
  - intros p Hp Hpe Hsafe.
    assert (Hout : get_output_file_args_errors fuel env (Some p) (force_overwrite args)
                     (create_parents args) = Ok None).
    { rewrite Hp in H.
      destruct (match output_directory args with
                | Some dir =>
                    if truthy dir && negb (is_output_directory_safe (existing env) dir
                                             (create_parents args))
                    then Some _ else None
                | None => None
                end); [discriminate|].
      destruct (get_output_file_args_errors fuel env (Some p) (force_overwrite args)
                  (create_parents args)) as [[m|]| |] eqn:Hoe;
        cbn [bind truthy_opt] in H; try discriminate; [|reflexivity].
      rewrite (output_file_errors_truthy _ _ _ _ _ _ Hoe) in H. discriminate. }
    unfold get_output_file_args_errors, truthy in Hout.
    apply String.eqb_neq in Hpe. rewrite Hpe, Hsafe in Hout. cbn [negb] in Hout.
    unfold is_output_directory_safe in Hout.
    destruct (create_parents args); [left; reflexivity|].
    destruct (path_exists (existing env) (fst (splitext p)));
      [right; reflexivity | discriminate].
Qed.

Lemma accepted_arguments_witness :
  gdal_can_open roads_env "data/roads.shp" = true
  /\ str_in "-f" "-where pop>5" = false.
Proof.
  destruct (accepted_arguments 1 roads_env (roads_args "-where pop>5"))
    as (_ & _ & _ & Hfile & Hreserved & _).
  - reflexivity.
  - split.
    + apply Hfile. reflexivity.
    + apply Hreserved. left. reflexivity.
Defined.

(** ** The overwrite prompt *)

Lemma prompt_loop_skips (junk answers : list string) :
  forallb (fun a => negb (recognised a)) junk = true ->
  prompt_loop (junk ++ answers) = prompt_loop answers.
Proof.
  induction junk as [|a junk IH]; cbn [forallb app]; intros H; [reflexivity|].
  apply andb_true_iff in H as [Ha Hj]. cbn [prompt_loop].
  unfold recognised, truthy in *.
  destruct (a =? "1"); [discriminate|]. destruct (a =? "2"); [discriminate|].
  destruct (a =? "3"); [discriminate|]. destruct (a =? ""); [discriminate|].
  cbn [negb orb]. apply IH. exact Hj.
Qed.

(** X15.  When the output file exists and overwriting is not forced,
    validation asks until it reads [1], [2], [3] or an empty line, skipping
    every other answer: [1] and [2] both end validation without an error, [3]
    and the empty line end it with [Exiting], and input that ends before
    such an answer raises [EOFError]. *)
Theorem prompt_acts_on_first_recognised_answer (fuel : nat) (env : Env) (p : string)
    (can_create_parents : bool) (junk : list string) :
  p <> "" ->
  path_exists (existing env) p = true ->
  List.length (existing env) < fuel ->
  forallb (fun a => negb (recognised a)) junk = true ->
  (forall answer rest,
      stdin env = (junk ++ answer :: rest)%list -> recognised answer = true ->
      get_output_file_args_errors fuel env (Some p) false can_create_parents
      = Ok (if (answer =? "1") || (answer =? "2") then None else Some "Exiting"))
  /\ (stdin env = junk ->
      get_output_file_args_errors fuel env (Some p) false can_create_parents
      = Raise EOFError).
Proof.
  intros Hp Hexists Hfuel Hjunk.
  assert (Hstart : get_output_file_args_errors fuel env (Some p) false can_create_parents
                   = (do_exit <- prompt_loop (stdin env) ;;
                      if do_exit : bool then Ok (Some "Exiting") else Ok None)).
  { unfold get_output_file_args_errors, truthy, is_output_file_safe.
    apply String.eqb_neq in Hp. rewrite Hp, Hexists. cbn [negb orb].
    destruct (safe_filepath_numbered (existing env) p fuel Hfuel Hexists)
      as (n & _ & Heq & _).
    rewrite Heq. reflexivity. }
  rewrite Hstart. split.
  - intros answer rest Hstdin Hrec. rewrite Hstdin, (prompt_loop_skips _ _ Hjunk).
    cbn [prompt_loop]. unfold recognised, truthy in *.
    destruct (answer =? "1"), (answer =? "2"), (answer =? "3"), (answer =? "");
      try reflexivity; discriminate.
  - intros Hstdin. rewrite Hstdin, <- (app_nil_r junk), (prompt_loop_skips _ _ Hjunk).
    reflexivity.
Qed.

Lemma prompt_acts_on_first_recognised_answer_witness :
  get_output_file_args_errors 2
    {| existing := ["out/a.json"]; isfile := fun _ => true; isdir := fun _ => false;
       gdal_can_open := fun _ => true; stdin := ["yes"; "2"; "3"] |}
    (Some "out/a.json") false false
  = Ok None.
Proof.
  destruct (prompt_acts_on_first_recognised_answer 2
              {| existing := ["out/a.json"]; isfile := fun _ => true;
                 isdir := fun _ => false; gdal_can_open := fun _ => true;
                 stdin := ["yes"; "2"; "3"] |}
              "out/a.json" false ["yes"]) as (Hanswer & _).
  - discriminate.
  - reflexivity.
  - simpl. lia.
  - reflexivity.
  - apply (Hanswer "2" ["3"]); reflexivity.
Defined.

(** ** The dispatch of [main] *)

Section DispatchFacts.

Variable loads : string -> option json.
Variable listdir : string -> option (list string).
Variable makedirs : list string -> string -> option (list string).

(** X16.  Without [--force_overwrite], the output path that [main] hands to
    the conversion of a single file is never one that exists, whatever was
    answered at the prompt: answering [2] (overwrite) is followed by the same
    search of a free numbered path as answering [1]. *)
Theorem main_never_overwrites_without_force (fuel : nat) (env : Env)
    (args : Namespace) (call : ndjson_call) (q : string) :
  force_overwrite args = false ->
  main_dispatch loads listdir makedirs fuel env args = Ok (SingleFile call) ->
  call_output_filepath call = Some q ->
  q <> "" ->
  (create_parents args = false -> path_exists (existing env) q = false)
  /\ exists fs,
      (fs = existing env \/ exists dir, makedirs (existing env) dir = Some fs)
      /\ path_exists fs q = false.
Proof.
  intros Hforce Hmain Hcall Hq. unfold main_dispatch in Hmain.
  destruct (get_arg_errors fuel env args) as [arg_error| |]; cbn [bind] in Hmain;
    try discriminate.
  destruct (truthy_opt arg_error); [discriminate|].
  match type of Hmain with
  | match ?c with _ => _ end = _ => destruct c as [fs|] eqn:Hcreated
  end; [|discriminate].
  destruct (get_columns loads (columns args)) as [[columns|]| |]; cbn [bind] in Hmain;
    try discriminate.
  destruct (truthy_opt (extension args)).
  { destruct (convert_all _ _ _ _ _ _ _ _ _); discriminate. }
  destruct (truthy_opt (output_filepath args)) eqn:Hgiven.
  - destruct (get_safe_filepath fuel fs _ (force_overwrite args) true) as [p| |] eqn:Hsafe;
      cbn [bind] in Hmain; try discriminate.
    inversion Hmain as [Hc]. rewrite <- Hc in Hcall. cbn [call_output_filepath] in Hcall.
    inversion Hcall; subst p.
    apply get_safe_filepath_sound in Hsafe. rewrite Hforce in Hsafe.
    unfold is_output_file_safe in Hsafe. cbn [orb] in Hsafe.
    apply negb_true_iff in Hsafe. split.
    + intros Hcp. rewrite Hcp in Hcreated. cbn [andb] in Hcreated.
      injection Hcreated as <-. exact Hsafe.
    + exists fs. split; [|exact Hsafe].
      match type of Hcreated with
      | (if ?c then _ else _) = _ => destruct c
      end.
      * right. eauto.
      * left. injection Hcreated as <-. reflexivity.
  - cbn [bind] in Hmain. inversion Hmain as [Hc]. rewrite <- Hc in Hcall.
    cbn [call_output_filepath] in Hcall. rewrite Hcall in Hgiven.
    cbn [truthy_opt] in Hgiven. unfold truthy in Hgiven.
    apply negb_false_iff, String.eqb_eq in Hgiven. contradiction.
Qed.

(** X20.  In directory mode, every conversion that [main] asks for has
    [can_overwrite] false and no output file path: [--force_overwrite] and
    [--output_filepath] are not passed on. *)
Theorem directory_mode_ignores_force_overwrite (fuel : nat) (env : Env)
    (args : Namespace) (calls : list ndjson_call) :
  main_dispatch loads listdir makedirs fuel env args = Ok (Directory calls) ->
  forall call, In call calls ->
               call_can_overwrite call = false
               /\ call_output_filepath call = None.
Proof.
  intros Hmain call Hin. unfold main_dispatch in Hmain.
  destruct (get_arg_errors fuel env args) as [arg_error| |]; cbn [bind] in Hmain;
    try discriminate.
  destruct (truthy_opt arg_error); [discriminate|].
  match type of Hmain with
  | match ?c with _ => _ end = _ => destruct c as [fs|]
  end; [|discriminate].
  destruct (get_columns loads (columns args)) as [[columns|]| |]; cbn [bind] in Hmain;
    try discriminate.
  destruct (truthy_opt (extension args)).
  - unfold convert_all in Hmain.
    destruct (listdir (listed_directory (source args))) as [files|]; [|discriminate].
    inversion Hmain as [Hc]. rewrite <- Hc in Hin.
    apply in_map_iff in Hin as (file & <- & _). split; reflexivity.
  - destruct (if truthy_opt (output_filepath args) then _ else _);
      cbn [bind] in Hmain; discriminate.
Qed.

(** X21.  After validation has passed, a column configuration that
    [get_columns] refuses makes [main] exit with status 0, without a message
    of its own and without converting. *)
Theorem refused_columns_exit_with_status_0 (fuel : nat) (env : Env) (args : Namespace) :
  get_arg_errors fuel env args = Ok None ->
  create_parents args = false ->
  get_columns loads (columns args) = Ok None ->
  main_dispatch loads listdir makedirs fuel env args = Ok (Exit 0 "").
Proof.
  intros Hargs Hcp Hcols. unfold main_dispatch.
  rewrite Hargs, Hcp. cbn [bind truthy_opt andb]. rewrite Hcols. reflexivity.
Qed.

End DispatchFacts.

Lemma rfind_from_absent (c : ascii) (s : string) :
  str_in (String c "") s = false ->
  forall i last, rfind_from c s i last = last.
Proof.
  induction s as [|a s IH]; intros H i last; [reflexivity|].
  cbn [str_in String.prefix] in H. apply orb_false_iff in H as [Hp Hs].
  cbn [rfind_from]. rewrite (IH Hs).
  destruct (Ascii.eqb_spec a c) as [->|Hne]; [|reflexivity].
  destruct (ascii_dec c c); [|congruence].
  destruct s; discriminate.
Qed.

Lemma dirname_without_slash (p : string) :
  str_in "/" p = false -> dirname p = "".
Proof.
  intros H. unfold dirname, rfind. rewrite (rfind_from_absent _ _ H).
  cbn [Z.add Z.to_nat Z.opp]. destruct p; reflexivity.
Qed.

(** X23.  With [--create_parents] and an output file named without a
    directory, [main] asks [os.makedirs] to create the empty path; when that
    call fails, [main] exits with status 0 without converting. *)
Theorem create_parents_of_bare_filename (loads : string -> option json)
    (listdir : string -> option (list string))
    (makedirs : list string -> string -> option (list string))
    (fuel : nat) (env : Env) (args : Namespace) (p : string) :
  get_arg_errors fuel env args = Ok None ->
  create_parents args = true ->
  output_filepath args = Some p ->
  p <> "" ->
  str_in "/" p = false ->
  directory_to_create p false = ""
  /\ (makedirs (existing env) "" = None ->
      main_dispatch loads listdir makedirs fuel env args = Ok (Exit 0 "")).
Proof.
  intros Hargs Hcp Hout Hp Hslash.
  assert (Hdir : directory_to_create p false = "")
    by (unfold directory_to_create; cbn [andb]; apply dirname_without_slash; exact Hslash).
  split; [exact Hdir|]. intros Hfail.
  unfold main_dispatch. rewrite Hargs, Hcp, Hout. cbn [bind truthy_opt andb str_or].
  unfold truthy. apply String.eqb_neq in Hp. rewrite Hp. cbn [negb].
  rewrite orb_true_r, Hdir, Hfail. reflexivity.
Qed.

Lemma main_never_overwrites_without_force_witness :
  path_exists (existing data_env) "out_01.json" = false.
Proof.
  destruct (main_never_overwrites_without_force (loads_as (JObj [])) two_files
              makedirs_nonempty 4 data_env (roads_args_to "out.json" false)
              {| call_input_filepath := "data/roads.shp";
                 call_can_overwrite := false;
                 call_columns := [];
                 call_convert_options := "";
                 call_do_keep_geojsonseq := false;
                 call_output_directory := None;
                 call_output_filepath := Some "out_01.json";
                 call_save_schemas := true |}
              "out_01.json") as (Hfree & _).
  - reflexivity.
  - reflexivity.
  - reflexivity.
  - discriminate.
  - apply Hfree. reflexivity.
Defined.

Lemma directory_mode_ignores_force_overwrite_witness :
  force_overwrite directory_args = true
  /\ call_can_overwrite
       {| call_input_filepath := "data/a.shp";
          call_can_overwrite := false;
          call_columns := [];
          call_convert_options := "";
          call_do_keep_geojsonseq := false;
          call_output_directory := Some "data/";
          call_output_filepath := None;
          call_save_schemas := true |} = false.
Proof.
  split; [reflexivity|].
  apply (directory_mode_ignores_force_overwrite (loads_as (JObj [])) two_files
           makedirs_nonempty 4 data_env directory_args
           [{| call_input_filepath := "data/a.shp";
               call_can_overwrite := false;
               call_columns := [];
               call_convert_options := "";
               call_do_keep_geojsonseq := false;
               call_output_directory := Some "data/";
               call_output_filepath := None;
               call_save_schemas := true |}]).
  - reflexivity.
  - left. reflexivity.
Defined.

Lemma refused_columns_exit_with_status_0_witness :
  main_dispatch (fun _ => None) two_files makedirs_nonempty 1 roads_env
    (roads_args "") = Ok (Exit 0 "").
Proof.
  apply refused_columns_exit_with_status_0; reflexivity.
Defined.

Lemma create_parents_of_bare_filename_witness :
  main_dispatch (loads_as (JObj [])) two_files makedirs_nonempty 4 data_env
    (roads_args_to "roads.json" true) = Ok (Exit 0 "").
Proof.
  destruct (create_parents_of_bare_filename (loads_as (JObj [])) two_files
              makedirs_nonempty 4 data_env (roads_args_to "roads.json" true)
              "roads.json") as (_ & Hexit).
  - reflexivity.
  - reflexivity.
  - reflexivity.
  - discriminate.
  - reflexivity.
  - apply Hexit. reflexivity.
Defined.

(** ** Directory conversion *)

Lemma str_endswith_app (a suffix : string) : str_endswith suffix (a ++ suffix) = true.
Proof.
  induction a as [|c a IH]; cbn [append].
  - destruct suffix; cbn [str_endswith]; rewrite String.eqb_refl; reflexivity.
  - cbn [str_endswith]. rewrite IH. apply orb_true_r.
Qed.

(** X18.  [convert_all] converts exactly the listed files whose last
    extension is the target extension, compared with case, in listing order;
    the leading dot of the target extension is optional. *)
Theorem convert_all_selects_by_extension (listdir : string -> option (list string))
    (source_directory target_extension : string) (can_overwrite : bool)
    (columns : dict json) (convert_options : string) (keep : bool)
    (output_directory : option string) (skip_schemas : bool) (files : list string) :
  listdir (listed_directory source_directory) = Some files ->
  exists calls,
    convert_all listdir source_directory target_extension can_overwrite columns
      convert_options keep output_directory skip_schemas = Some calls
    /\ map call_input_filepath calls
       = map (path_join (listed_directory source_directory))
           (filter (fun file => snd (splitext file) =? dotted_extension target_extension)
              files)
    /\ (forall call, In call calls ->
          exists file, In file files
                       /\ snd (splitext file) = dotted_extension target_extension
                       /\ call_input_filepath call
                          = path_join (listed_directory source_directory) file)
    /\ (String.prefix "." target_extension = false ->
        convert_all listdir source_directory ("." ++ target_extension) can_overwrite
          columns convert_options keep output_directory skip_schemas = Some calls).
Proof.
  intros Hlist. unfold convert_all. rewrite Hlist.
  eexists. split; [reflexivity|]. split; [|split].
  - rewrite map_map. reflexivity.
  - intros call Hin.
    apply in_map_iff in Hin as (file & <- & Hfile).
    apply filter_In in Hfile as [Hin Hext]. apply String.eqb_eq in Hext.
    exists file. auto.
  - intros Hdot.
    assert (Hsame : dotted_extension ("." ++ target_extension)
                    = dotted_extension target_extension).
    { unfold dotted_extension. rewrite Hdot. simpl.
      destruct target_extension; reflexivity. }
    rewrite Hsame. reflexivity.
Qed.

Lemma convert_all_selects_by_extension_witness :
  exists calls,
    convert_all two_files "data/" "shp" false [] "" false None false = Some calls
    /\ map call_input_filepath calls = ["data/a.shp"].
Proof.
  destruct (convert_all_selects_by_extension two_files "data/" "shp" false [] "" false
              None false ["a.shp"; "b.txt"]) as (calls & Heq & Hmap & _).
  - reflexivity.
  - exists calls. split; [exact Heq | exact Hmap].
Defined.

(** X19.  [convert_all] lists the source directory itself only when its
    path ends with a slash; for a path [d] without one it lists, and by
    default writes to, the path [d + d + '/'], so the call is the one for
    that directory. *)
Theorem convert_all_doubles_directory_without_slash
    (listdir : string -> option (list string))
    (source_directory target_extension : string) (can_overwrite : bool)
    (columns : dict json) (convert_options : string) (keep : bool)
    (output_directory : option string) (skip_schemas : bool) :
  (str_endswith "/" source_directory = true ->
   listed_directory source_directory = source_directory)
  /\ (str_endswith "/" source_directory = false ->
      listed_directory source_directory = source_directory ++ source_directory ++ "/"
      /\ listed_directory source_directory <> source_directory
      /\ convert_all listdir source_directory target_extension can_overwrite columns
           convert_options keep output_directory skip_schemas
         = convert_all listdir (source_directory ++ source_directory ++ "/")
             target_extension can_overwrite columns convert_options keep
             output_directory skip_schemas).
Proof.
  unfold listed_directory. split; intros H; rewrite H; cbn [negb]; [reflexivity|].
  split; [reflexivity|]. split.
  - intros Heq. apply (f_equal String.length) in Heq.
    rewrite !str_length_app in Heq. simpl in Heq. lia.
  - unfold convert_all, listed_directory. rewrite H. cbn [negb].
    replace (source_directory ++ source_directory ++ "/")
      with ((source_directory ++ source_directory) ++ "/")
      by apply str_app_assoc.
    rewrite str_endswith_app. reflexivity.
Qed.

Lemma convert_all_doubles_directory_without_slash_witness :
  listed_directory "data" = "datadata/".
Proof.
  destruct (convert_all_doubles_directory_without_slash two_files "data" "shp" false []
              "" false None false) as (_ & Hdouble).
  destruct (Hdouble eq_refl) as (Heq & _). exact Heq.
Defined.

(** ** Where the schema files go *)

Lemma path_exists_app (fs fs' : list string) (p : string) :
  path_exists (fs ++ fs') p = path_exists fs p || path_exists fs' p.
Proof. unfold path_exists. apply existsb_app. Qed.

(** X22.  Without overwrite, [save_schema_files] writes its two files under
    paths that did not exist and leaves every other file as it was; with
    overwrite it writes [root_SCHEMA.json] and [root_SCHEMA.txt]
    themselves. *)
Theorem save_schema_files_keeps_existing_files (fuel : nat) (w : world)
    (schema : dict string) (path_root : string) (can_overwrite : bool) :
  S (List.length (paths w)) < fuel ->
  unique_keys schema = true ->
  exists w' json_filepath plaintext_filepath,
    save_schema_files fuel w schema path_root can_overwrite = Ok w'
    /\ (can_overwrite = false ->
        path_exists (paths w) json_filepath = false
        /\ path_exists (paths w) plaintext_filepath = false)
    /\ (can_overwrite = true ->
        json_filepath = path_root ++ "_SCHEMA.json"
        /\ plaintext_filepath = path_root ++ "_SCHEMA.txt")
    /\ (forall p, p <> json_filepath -> p <> plaintext_filepath ->
                  dict_get (written w') p = dict_get (written w) p)
    /\ path_exists (paths w') json_filepath = true
    /\ path_exists (paths w') plaintext_filepath = true.
Proof.
  intros Hfuel Hu. unfold save_schema_files.
  destruct (get_safe_filepath_returns (paths w) (path_root ++ "_SCHEMA.json")
              fuel can_overwrite) as (jp & Hjp & Hjp_over & Hjp_free); [lia|].
  rewrite Hjp. cbn [bind].
  set (w1 := write_file (print w (saving_json_message jp)) jp (JsonDump schema)).
  destruct (get_safe_filepath_returns (paths w1) (path_root ++ "_SCHEMA.txt")
              fuel can_overwrite) as (tp & Htp & Htp_over & Htp_free).
  { pose proof (write_file_paths_length (print w (saving_json_message jp)) jp
                  (JsonDump schema)) as Hlen.
    fold w1 in Hlen. cbn [print paths] in Hlen. lia. }
  rewrite Htp. cbn [bind]. rewrite (render_schema_spec schema Hu). cbn [bind].
  set (w3 := write_file (print w1 (saving_plaintext_message tp)) tp
               (Text (plaintext_schema schema))).
  assert (Hsub : forall p, path_exists (paths w1) p = false ->
                           path_exists (paths w) p = false).
  { intros p. unfold w1. cbn [write_file print paths].
    destruct (path_exists (paths w) jp); [auto|].
    rewrite path_exists_app. intros H. apply orb_false_iff in H as [H _]. exact H. }
  assert (Hjp1 : path_exists (paths w1) jp = true)
    by (unfold w1; apply write_file_path_exists).
  assert (Hkeep : forall p, path_exists (paths w1) p = true ->
                            path_exists (paths w3) p = true).
  { intros p Hp. unfold w3. cbn [write_file print paths].
    destruct (path_exists (paths w1) tp); [exact Hp|].
    rewrite path_exists_app, Hp. reflexivity. }
  assert (Hfinal : forall w',
             paths w' = paths w3 -> written w' = written w3 ->
             (can_overwrite = false ->
              path_exists (paths w) jp = false /\ path_exists (paths w) tp = false)
             /\ (can_overwrite = true ->
                 jp = path_root ++ "_SCHEMA.json" /\ tp = path_root ++ "_SCHEMA.txt")
             /\ (forall p, p <> jp -> p <> tp ->
                           dict_get (written w') p = dict_get (written w) p)
             /\ path_exists (paths w') jp = true
             /\ path_exists (paths w') tp = true).
  { intros w' Hpaths Hwritten. rewrite Hpaths, Hwritten.
    split; [|split; [|split; [|split]]].
    - intros Hover. split; [apply Hjp_free; exact Hover|].
      apply Hsub, Htp_free. exact Hover.
    - intros Hover. split; [apply Hjp_over | apply Htp_over]; exact Hover.
    - intros p Hj Ht. unfold w3, w1. cbn [write_file print written].
      rewrite !dict_get_set_other by congruence. reflexivity.
    - apply Hkeep. exact Hjp1.
    - unfold w3. apply write_file_path_exists. }
  destruct (0 <? List.length (unknown_columns_of schema))%nat.
  - exists (print w3 (unknown_warning (unknown_columns_of schema))), jp, tp.
    split; [reflexivity|]. apply Hfinal; reflexivity.
  - exists w3, jp, tp. split; [reflexivity|]. apply Hfinal; reflexivity.
Qed.

Lemma save_schema_files_keeps_existing_files_witness :
  exists w',
    save_schema_files 3
      {| paths := ["out/roads_SCHEMA.json"];
         written := [("out/roads_SCHEMA.json", Text "kept")];
         stdout := [] |}
      [("pop", "INTEGER")] "out/roads" false = Ok w'
    /\ dict_get (written w') "out/roads_SCHEMA.json" = Some (Text "kept").
Proof.
  destruct (save_schema_files_keeps_existing_files 3
              {| paths := ["out/roads_SCHEMA.json"];
                 written := [("out/roads_SCHEMA.json", Text "kept")];
                 stdout := [] |}
              [("pop", "INTEGER")] "out/roads" false)
    as (w' & jp & tp & Heq & _).
  - simpl. lia.
  - reflexivity.
  - exists w'. split; [exact Heq|].
    vm_compute in Heq. inversion Heq; subst w'. reflexivity.
Defined.

(** ** From the conversion to the schema files *)


